(** * The gateway / supervisor of [main.py], embedded in Rocq

    The development follows the layout of [main.py]: the configuration read
    from the environment, the [CustomCircuitBreaker] class, and the methods
    of [DynamicSubAppMiddleware] ([dispatch], [generate_docker_compose], the
    [docker-compose] wrappers, [health_check], [graceful_shutdown]).

    Python code that talks to the outside world (HTTP, sub-processes, SMTP,
    the file system, the logger) is written in a small state-and-exception
    monad whose state is the chronological trace of the effects performed so
    far.  The answers of the outside world are supplied by an environment
    of oracles; each oracle sees the whole trace, so an answer may depend on
    everything that happened before the call. *)

From Stdlib Require Import ZArith Lia Ascii String.
From stdpp Require Import base list strings pretty.

Local Open Scope string_scope.
Local Open Scope Z_scope.
Local Open Scope list_scope.

(** ** Python primitives used by [main.py] *)

Module Py.

(** [s.lstrip(c)] for a one-character set. *)
Fixpoint lstrip (c : ascii) (s : string) : string :=
  match s with
  | EmptyString => EmptyString
  | String a s' => if Ascii.eqb a c then lstrip c s' else s
  end.

(** [s.rstrip(c)] for a one-character set. *)
Fixpoint rstrip (c : ascii) (s : string) : string :=
  match s with
  | EmptyString => EmptyString
  | String a s' =>
      match rstrip c s' with
      | EmptyString => if Ascii.eqb a c then EmptyString else String a EmptyString
      | r => String a r
      end
  end.

(** [s.strip(c)]. *)
Definition strip (c : ascii) (s : string) : string := rstrip c (lstrip c s).

(** [s.split(c)[0]]: the text before the first occurrence of [c]. *)
Fixpoint split_first (c : ascii) (s : string) : string :=
  match s with
  | EmptyString => EmptyString
  | String a s' => if Ascii.eqb a c then EmptyString else String a (split_first c s')
  end.

(** [str(n)] / [f"{n}"] for an [int]. *)
Definition str_int (n : Z) : string := pretty n.

(** A [dict] with string keys, in insertion order. *)
Definition dict (V : Type) : Type := list (string * V).

(** [d.get(k)]; [k in d] is [is_Some (dict_get k d)]. *)
Fixpoint dict_get {V} (k : string) (d : dict V) : option V :=
  match d with
  | [] => None
  | (k', v) :: d' => if String.eqb k k' then Some v else dict_get k d'
  end.

(** [d[k] = v]: an existing key keeps its position, a new one goes last. *)
Fixpoint dict_set {V} (k : string) (v : V) (d : dict V) : dict V :=
  match d with
  | [] => [(k, v)]
  | (k', v') :: d' =>
      if String.eqb k k' then (k, v) :: d' else (k', v') :: dict_set k v d'
  end.

(** [d.keys()]. *)
Definition keys {V} (d : dict V) : list string := map fst d.

End Py.

(** ** Module-level configuration (lines 28-42 of [main.py]) *)

(** The process environment, with the integer variables already read by
    [int(...)]; the import of [main.py] fails before any method runs when
    such a variable is not an integer literal. *)
Record Environ := {
  env_int : string -> option Z;
  env_str : string -> option string
}.

(** [int(os.getenv(k, d))] *)
Definition getenv_int (environ : Environ) (k : string) (d : Z) : Z :=
  default d (env_int environ k).

(** [os.getenv(k, d)] *)
Definition getenv (environ : Environ) (k : string) (d : string) : string :=
  default d (env_str environ k).

(** The module globals of [main.py]. *)
Record Globals := {
  MAIN_APP_PORT : Z;
  SUBAPP_PORTS : Py.dict Z;
  DOCKER_COMPOSE_FILE : string;
  SCALING_FACTOR : Z;
  HEALTH_CHECK_INTERVAL : Z;
  ALERT_EMAIL : string;
  SMTP_SERVER : string;
  SMTP_PORT : Z;
  SMTP_USERNAME : string;
  SMTP_PASSWORD : string
}.

(** The assignments executed when [main.py] is imported. *)
Definition module_globals (environ : Environ) : Globals :=
  let main_app_port := getenv_int environ "MAIN_APP_PORT" 8000 in
  {| MAIN_APP_PORT := main_app_port;
     SUBAPP_PORTS :=
       Py.dict_set "subapp2" (getenv_int environ "SUBAPP2_PORT" 8002)
         (Py.dict_set "subapp1" (getenv_int environ "SUBAPP1_PORT" 8001)
            (Py.dict_set "main" main_app_port []));
     DOCKER_COMPOSE_FILE := getenv environ "DOCKER_COMPOSE_FILE" "docker-compose.yml";
     SCALING_FACTOR := getenv_int environ "SCALING_FACTOR" 1;
     HEALTH_CHECK_INTERVAL := getenv_int environ "HEALTH_CHECK_INTERVAL" 60;
     ALERT_EMAIL := getenv environ "ALERT_EMAIL" "admin@example.com";
     SMTP_SERVER := getenv environ "SMTP_SERVER" "smtp.example.com";
     SMTP_PORT := getenv_int environ "SMTP_PORT" 587;
     SMTP_USERNAME := getenv environ "SMTP_USERNAME" "username";
     SMTP_PASSWORD := getenv environ "SMTP_PASSWORD" "password" |}.

(** An environment in which no variable is set: every default applies. *)
Definition empty_environ : Environ :=
  {| env_int := fun _ => None; env_str := fun _ => None |}.

(** ** Values exchanged with the outside world *)

(** The inbound [Request]: what [dispatch] can read of it. *)
Record Request := {
  method : string;
  url_path : string;
  headers : list (string * string);
  body : string
}.

(** A [requests.Response]; the response of the fallback application is
    given the same shape. *)
Record Response := {
  status_code : Z;
  reason : string;
  url : string;
  resp_headers : list (string * string);
  content : string
}.

(** The arguments of one outbound HTTP call made through [requests]. *)
Record HttpCall := {
  call_method : string;
  call_url : string;
  call_headers : list (string * string);
  call_body : option string;
  call_timeout : option Z
}.

(** [requests.get(url)]: method GET, the library's default headers only
    (no [headers=]), no body, no [timeout=]. *)
Definition get_call (u : string) : HttpCall :=
  {| call_method := "GET"; call_url := u; call_headers := [];
     call_body := None; call_timeout := None |}.

(** The exceptions that occur in [main.py].  [HTTPError] is the subclass of
    [requests.RequestException] raised by [raise_for_status]. *)
Inductive Exn :=
| RequestException (msg : string)
| HTTPError (msg : string)
| HTTPException (status : Z) (detail : string)
| CalledProcessError (argv : list string)
| CircuitBreakerError
| NameError (name : string)
| OtherError (msg : string).

(** [isinstance(e, requests.RequestException)] *)
Definition is_RequestException (e : Exn) : bool :=
  match e with
  | RequestException _ | HTTPError _ => true
  | _ => false
  end.

(** [isinstance(e, subprocess.CalledProcessError)] *)
Definition is_CalledProcessError (e : Exn) : bool :=
  match e with CalledProcessError _ => true | _ => false end.

(** [isinstance(e, CircuitBreakerError)] *)
Definition is_CircuitBreakerError (e : Exn) : bool :=
  match e with CircuitBreakerError => true | _ => false end.

(** [str(e)].  [main.py] formats only exceptions caught as
    [requests.RequestException], whose text is the message they carry. *)
Definition str_exn (e : Exn) : string :=
  match e with
  | RequestException m | HTTPError m | OtherError m => m
  | HTTPException _ d => d
  | CalledProcessError argv => String.concat " " argv
  | CircuitBreakerError => "CircuitBreakerError"
  | NameError n => "name '" +:+ n +:+ "' is not defined"
  end.

(** The outcome of a Python call: a value or a raised exception. *)
Inductive Res (A : Type) :=
| Ok (a : A)
| Raise (e : Exn).
Arguments Ok {A} a.
Arguments Raise {A} e.

(** One service of the compose file, as the nested dictionaries that
    [generate_docker_compose] builds. *)
Record RestartPolicy := {
  rp_condition : string;
  rp_delay : string;
  rp_max_attempts : Z;
  rp_window : string
}.

Record HealthProbe := {
  hp_test : list string;
  hp_interval : string;
  hp_timeout : string;
  hp_retries : Z;
  hp_start_period : string
}.

Record Service := {
  svc_build : string;
  svc_ports : list string;
  svc_replicas : Z;
  svc_restart_policy : RestartPolicy;
  svc_healthcheck : HealthProbe
}.

Record Compose := {
  compose_version : string;
  compose_services : Py.dict Service
}.

(** The e-mail built by [send_alert]. *)
Record EmailMessage := {
  msg_content : string;
  msg_subject : string;
  msg_from : string;
  msg_to : string
}.

(** The observable effects, in the order the code performs them. *)
Inductive Event :=
| LogError (msg : string)
| LogInfo (msg : string)
| ScopeSet (key value : string)
| HttpRequest (c : HttpCall)
| CallNext (r : Request)
| SubprocessRun (argv : list string)
| YamlDump (path : string) (doc : Compose)
| SmtpSession (server : string) (port : Z) (user password : string) (m : EmailMessage)
| FuncCalled (label : string)
| Sleep (seconds : Z).

Definition Trace : Type := list Event.

(** The outside world.  Every oracle receives the trace up to the call. *)
Record Env := {
  net : Trace -> HttpCall -> Res Response;
  next_app : Trace -> Request -> Res Response;
  proc : Trace -> list string -> Res unit;
  file_system : Trace -> string -> Res unit;
  smtp : Trace -> EmailMessage -> Res unit;
  clock : Trace -> Z
}.

(** ** The effect monad *)

Definition M (A : Type) : Type := Trace -> Res A * Trace.

Definition ret {A} (a : A) : M A := fun t => (Ok a, t).

Definition bind {A B} (c : M A) (k : A -> M B) : M B :=
  fun t =>
    match c t with
    | (Ok a, t') => k a t'
    | (Raise e, t') => (Raise e, t')
    end.

(** [raise e] *)
Definition throw {A} (e : Exn) : M A := fun t => (Raise e, t).

(** [try: c  except E as e: h e], where [catches] is [isinstance(_, E)]. *)
Definition try_except {A} (c : M A) (catches : Exn -> bool) (h : Exn -> M A) : M A :=
  fun t =>
    match c t with
    | (Raise e, t') => if catches e then h e t' else (Raise e, t')
    | r => r
    end.

(** Perform one effect that cannot fail. *)
Definition emit (e : Event) : M unit := fun t => (Ok tt, t ++ [e]).

(** Perform one effect and receive the world's answer, computed from the
    trace before the call. *)
Definition ask {A} (e : Event) (answer : Trace -> Res A) : M A :=
  fun t => (answer t, t ++ [e]).

Declare Scope py_scope.
Delimit Scope py_scope with py.
Notation "x <- c ;; k" := (bind c (fun x => k))
  (at level 100, c at next level, right associativity) : py_scope.
Notation "c ;; k" := (bind c (fun _ => k))
  (at level 100, right associativity) : py_scope.
Local Open Scope py_scope.

Section WithWorld.

Variable g : Globals.
Variable env : Env.

(** [logger.error(msg, ...)] and [logger.info(msg)] *)
Definition log_error (msg : string) : M unit := emit (LogError msg).
Definition log_info (msg : string) : M unit := emit (LogInfo msg).

(** [requests.get(url)] *)
Definition requests_get (u : string) : M Response :=
  ask (HttpRequest (get_call u)) (fun t => net env t (get_call u)).

(** [response.raise_for_status()] of the [requests] package: an
    [HTTPError] for a 4xx or a 5xx status, nothing otherwise. *)
Definition raise_for_status (r : Response) : M unit :=
  if (400 <=? status_code r) && (status_code r <? 500) then
    throw (HTTPError (Py.str_int (status_code r) +:+ " Client Error: " +:+ reason r
                      +:+ " for url: " +:+ url r))
  else if (500 <=? status_code r) && (status_code r <? 600) then
    throw (HTTPError (Py.str_int (status_code r) +:+ " Server Error: " +:+ reason r
                      +:+ " for url: " +:+ url r))
  else ret tt.

(** [subprocess.run(argv, check=True)] *)
Definition subprocess_run (argv : list string) : M unit :=
  ask (SubprocessRun argv) (fun t => proc env t argv).

(** [await call_next(request)] *)
Definition call_next (r : Request) : M Response :=
  ask (CallNext r) (fun t => next_app env t r).

(** *** [DynamicSubAppMiddleware.dispatch] (lines 115-130) *)

(** The name computed on lines 116-117. *)
Definition subapp_name_of (request : Request) : string :=
  let path := Py.strip "/" (url_path request) in
  if String.eqb path "" then "main" else Py.split_first "/" path.

(** The URL built on line 122. *)
Definition forward_url (port : Z) (request : Request) : string :=
  "http://localhost:" +:+ Py.str_int port +:+ url_path request.

Definition dispatch (request : Request) : M Response :=
  let subapp_name := subapp_name_of request in
  match Py.dict_get subapp_name (SUBAPP_PORTS g) with
  | Some port =>
      emit (ScopeSet "root_path" ("/" +:+ subapp_name)) ;;
      try_except
        (let u := forward_url port request in
         response <- requests_get u ;;
         raise_for_status response ;;
         ret response)
        is_RequestException
        (fun e =>
           log_error ("Error processing request for " +:+ subapp_name) ;;
           throw (HTTPException 503
                    ("Subapp " +:+ subapp_name +:+ " is currently unavailable: "
                     +:+ str_exn e)))
  | None => call_next request
  end.

(** *** [generate_docker_compose] (lines 132-164) *)

(** The dictionary assigned to [services[subapp_name]]. *)
Definition service_for (subapp_name : string) (port : Z) : Service :=
  {| svc_build :=
       if negb (String.eqb subapp_name "main")
       then "./subapps/" +:+ subapp_name else ".";
     svc_ports := [Py.str_int port +:+ ":8000"];
     svc_replicas := SCALING_FACTOR g;
     svc_restart_policy :=
       {| rp_condition := "on-failure"; rp_delay := "5s";
          rp_max_attempts := 3; rp_window := "120s" |};
     svc_healthcheck :=
       {| hp_test := ["CMD-SHELL";
                      "curl --fail http://localhost:" +:+ Py.str_int port
                      +:+ "/health || exit 1"];
          hp_interval := "30s"; hp_timeout := "10s";
          hp_retries := 3; hp_start_period := "10s" |} |}.

(** The [for] loop of lines 134-154, started from [services]. *)
Fixpoint fill_services (items : Py.dict Z) (services : Py.dict Service)
  : Py.dict Service :=
  match items with
  | [] => services
  | (subapp_name, port) :: rest =>
      fill_services rest (Py.dict_set subapp_name (service_for subapp_name port) services)
  end.

Definition compose_dict : Compose :=
  {| compose_version := "3.8";
     compose_services := fill_services (SUBAPP_PORTS g) [] |}.

Definition generate_docker_compose : M unit :=
  ask (YamlDump (DOCKER_COMPOSE_FILE g) compose_dict)
      (fun t => file_system env t (DOCKER_COMPOSE_FILE g)) ;;
  log_info "Generated docker-compose.yml successfully.".

(** *** The [docker-compose] wrappers (lines 185-207) *)

Definition start_services : M unit :=
  try_except
    (subprocess_run ["docker-compose"; "-f"; DOCKER_COMPOSE_FILE g; "up"; "-d"] ;;
     log_info "Docker Compose services started successfully.")
    is_CalledProcessError
    (fun e => log_error "Failed to start Docker Compose services." ;; throw e).

Definition stop_services : M unit :=
  try_except
    (subprocess_run ["docker-compose"; "-f"; DOCKER_COMPOSE_FILE g; "down"] ;;
     log_info "Docker Compose services stopped successfully.")
    is_CalledProcessError
    (fun e => log_error "Failed to stop Docker Compose services." ;; throw e).

Definition restart_service (subapp_name : string) : M unit :=
  try_except
    (subprocess_run ["docker-compose"; "restart"; subapp_name] ;;
     log_info ("Restarted service: " +:+ subapp_name))
    is_CalledProcessError
    (fun e => log_error ("Failed to restart service " +:+ subapp_name +:+ ".") ;; throw e).

(** *** [health_check] (lines 220-231) *)

(** The URL built on line 224. *)
Definition health_url (port : Z) : string :=
  "http://localhost:" +:+ Py.str_int port +:+ "/health".

(** The [for] loop of lines 223-227.  Besides the outcome it returns the
    binding of the loop variable [subapp_name] when the loop is left,
    which the [except] clause of line 228 reads; [cur] is that binding on
    entry ([None]: not bound yet). *)
Fixpoint probe_loop (items : Py.dict Z) (cur : option string) (t : Trace)
  : Res unit * option string * Trace :=
  match items with
  | [] => (Ok tt, cur, t)
  | (subapp_name, port) :: rest =>
      let u := health_url port in
      match requests_get u t with
      | (Raise e, t1) => (Raise e, Some subapp_name, t1)
      | (Ok response, t1) =>
          if negb (status_code response =? 200) then
            match log_error ("Health check failed for " +:+ subapp_name
                             +:+ ". Status code: "
                             +:+ Py.str_int (status_code response)) t1 with
            | (Raise e, t2) => (Raise e, Some subapp_name, t2)
            | (Ok _, t2) => probe_loop rest (Some subapp_name) t2
            end
          else probe_loop rest (Some subapp_name) t1
      end
  end.

(** One pass through the body of [while True], up to the [sleep]. *)
Definition health_check_tick : M unit :=
  fun t =>
    match probe_loop (SUBAPP_PORTS g) None t with
    | (Raise e, cur, t1) =>
        if is_RequestException e then
          (log_error ("Error during health check: " +:+ str_exn e) ;;
           match cur with
           | Some subapp_name => restart_service subapp_name
           | None => throw (NameError "subapp_name")
           end) t1
        else (Raise e, t1)
    | (Ok _, _, t1) => (Ok tt, t1)
    end.

(** The first [n] iterations of the [while True] loop. *)
Fixpoint health_check (n : nat) : M unit :=
  match n with
  | O => ret tt
  | S n' =>
      health_check_tick ;;
      emit (Sleep (HEALTH_CHECK_INTERVAL g)) ;;
      health_check n'
  end.

(** *** [graceful_shutdown] (lines 237-241) *)

(** [sys.exit(0)] on line 241: the module never imports [sys], so the
    lookup of the name raises. *)
Definition sys_exit (code : Z) : M unit := throw (NameError "sys").

Definition graceful_shutdown : M unit :=
  log_info "Received signal to shut down. Stopping services..." ;;
  stop_services ;;
  log_info "Services stopped. Exiting..." ;;
  sys_exit 0.

End WithWorld.

(** ** [CustomCircuitBreaker] (lines 62-90) *)

(** A computation that also updates an object of type [S] (the breaker
    on which a method is called). *)
Definition MS (S A : Type) : Type := S -> Trace -> Res A * S * Trace.

Section Breaker.

Variable g : Globals.
Variable env : Env.

(** The base class [CircuitBreaker] comes from the third-party package
    [circuitbreaker]; the subclass is written against its constructor and
    its [call] method, which are taken as parameters here. *)
Variable Base : Type.
Variable base_init : Z -> Z -> Base.
Variable base_call : forall A : Type, M A -> MS Base A.

Record CustomCircuitBreaker := {
  cb_base : Base;
  cb_name : string
}.

(** [__init__(self, name, failure_threshold=3, recovery_timeout=60)] *)
Definition init (name : string) (failure_threshold recovery_timeout : option Z)
  : CustomCircuitBreaker :=
  {| cb_base := base_init (default 3 failure_threshold) (default 60 recovery_timeout);
     cb_name := name |}.

(** [send_alert(self, message)] *)
Definition send_alert (self : CustomCircuitBreaker) (message : string) : M unit :=
  try_except
    (let msg :=
       {| msg_content := message;
          msg_subject := "Alert: Service Issue in " +:+ cb_name self;
          msg_from := SMTP_USERNAME g;
          msg_to := ALERT_EMAIL g |} in
     ask (SmtpSession (SMTP_SERVER g) (SMTP_PORT g) (SMTP_USERNAME g) (SMTP_PASSWORD g) msg)
         (fun t => smtp env t msg) ;;
     log_info ("Alert sent for " +:+ cb_name self +:+ " issue."))
    (fun _ => true)
    (fun e => log_error ("Failed to send alert email: " +:+ str_exn e)).

(** [call(self, func, ...)]; [func] stands for the application of the
    function to the remaining arguments. *)
Definition call {A} (func : M A) : MS CustomCircuitBreaker A :=
  fun self t =>
    match base_call A func (cb_base self) t with
    | (Ok a, b, t1) => (Ok a, {| cb_base := b; cb_name := cb_name self |}, t1)
    | (Raise e, b, t1) =>
        let self' := {| cb_base := b; cb_name := cb_name self |} in
        if is_CircuitBreakerError e then
          let message := "Circuit breaker triggered for " +:+ cb_name self
                         +:+ ". Service temporarily unavailable." in
          let '(r2, t2) :=
            (log_error message ;; send_alert self' message ;; throw e) t1 in
          (r2, self', t2)
        else (Raise e, self', t1)
    end.

End Breaker.

(** ** The base breaker *)

Module SpecBreaker.

Inductive State := Closed | Open | HalfOpen.

(** Modelled from the spec: the state of the base class [CircuitBreaker]
    (package [circuitbreaker], absent from the sources), as the
    [BreakerState] of section 3. *)
Record BreakerState := {
  state : State;
  consecutiveFailures : Z;
  openedAt : option Z;
  failureThreshold : Z;
  recoveryTimeout : Z
}.

(** Modelled from the spec: the constructor of the base class; a new
    breaker is Closed with no failure counted (section 4.3). *)
Definition base_init (failure_threshold recovery_timeout : Z) : BreakerState :=
  {| state := Closed; consecutiveFailures := 0; openedAt := None;
     failureThreshold := failure_threshold; recoveryTimeout := recovery_timeout |}.

(** Modelled from the spec: the gate [isCallPermitted] of section 4.3,
    missing with the base class.  Closed permits; Open rejects until
    [now - openedAt >= recoveryTimeout], when the attempt moves the
    breaker to HalfOpen and is permitted; a breaker already HalfOpen has
    its one trial in flight and rejects. *)
Definition isCallPermitted (now : Z) (b : BreakerState) : bool * BreakerState :=
  match state b with
  | Closed => (true, b)
  | HalfOpen => (false, b)
  | Open =>
      match openedAt b with
      | Some opened =>
          if recoveryTimeout b <=? now - opened then
            (true, {| state := HalfOpen;
                      consecutiveFailures := consecutiveFailures b;
                      openedAt := openedAt b;
                      failureThreshold := failureThreshold b;
                      recoveryTimeout := recoveryTimeout b |})
          else (false, b)
      | None => (false, b)
      end
  end.

(** Modelled from the spec: the mutator [recordOutcome] of section 4.3,
    missing with the base class.  A success closes the breaker and resets
    the count; a failure while Closed increments the count and opens the
    breaker when the count equals the threshold; a failure of the
    HalfOpen trial reopens it with a fresh [openedAt]. *)
Definition recordOutcome (now : Z) (success : bool) (b : BreakerState) : BreakerState :=
  if success then
    {| state := Closed; consecutiveFailures := 0; openedAt := openedAt b;
       failureThreshold := failureThreshold b; recoveryTimeout := recoveryTimeout b |}
  else
    match state b with
    | Closed =>
        let n := consecutiveFailures b + 1 in
        if n =? failureThreshold b then
          {| state := Open; consecutiveFailures := n; openedAt := Some now;
             failureThreshold := failureThreshold b;
             recoveryTimeout := recoveryTimeout b |}
        else
          {| state := Closed; consecutiveFailures := n; openedAt := openedAt b;
             failureThreshold := failureThreshold b;
             recoveryTimeout := recoveryTimeout b |}
    | _ =>
        {| state := Open; consecutiveFailures := consecutiveFailures b;
           openedAt := Some now;
           failureThreshold := failureThreshold b;
           recoveryTimeout := recoveryTimeout b |}
    end.

(** Modelled from the spec: the method [call] of the base class, missing
    from the sources.  Section 4.3 gives a breaker two operations, the
    gate [isCallPermitted], which the caller consults before it attempts a
    call, and the mutator [recordOutcome]; accordingly [call] does not
    consult the gate: it runs [func], records the outcome and hands the
    value or the exception of [func] on.  The base class knows nothing of
    [send_alert]. *)
Definition base_call (env : Env) (A : Type) (func : M A) : MS BreakerState A :=
  fun b t =>
    match func t with
    | (Ok a, t1) => (Ok a, recordOutcome (clock env t1) true b, t1)
    | (Raise e, t1) => (Raise e, recordOutcome (clock env t1) false b, t1)
    end.

End SpecBreaker.

(** [CustomCircuitBreaker] over the base breaker above. *)
Abbreviation Breaker := (CustomCircuitBreaker SpecBreaker.BreakerState).

Definition breaker_init (name : string) (failure_threshold recovery_timeout : option Z)
  : Breaker :=
  init SpecBreaker.BreakerState SpecBreaker.base_init name failure_threshold recovery_timeout.

Definition breaker_call (g : Globals) (env : Env) {A} (func : M A) : MS Breaker A :=
  call g env SpecBreaker.BreakerState (SpecBreaker.base_call env) func.

(** A sequence of calls through one breaker, each caller keeping the
    outcome of its call; the breaker after each call is recorded too. *)
Fixpoint breaker_calls (g : Globals) (env : Env) {A} (funcs : list (M A))
  : MS Breaker (list (Res A * SpecBreaker.State)) :=
  fun self t =>
    match funcs with
    | [] => (Ok [], self, t)
    | func :: rest =>
        let '(r, self1, t1) := breaker_call g env func self t in
        match breaker_calls g env rest self1 t1 with
        | (Ok rs, self2, t2) =>
            (Ok ((r, SpecBreaker.state (cb_base _ self1)) :: rs), self2, t2)
        | other => other
        end
    end.

(** The alerts attempted in a trace: one SMTP session per [send_alert]. *)
Definition alert_messages (t : Trace) : list EmailMessage :=
  omap (fun e => match e with SmtpSession _ _ _ _ m => Some m | _ => None end) t.


(** ** Reading a trace *)

(** The outbound HTTP calls of a trace, oldest first. *)
Definition http_calls (t : Trace) : list HttpCall :=
  omap (fun e => match e with HttpRequest c => Some c | _ => None end) t.

(** The requests handed to the fallback handler. *)
Definition fallback_calls (t : Trace) : list Request :=
  omap (fun e => match e with CallNext r => Some r | _ => None end) t.

(** The sub-process invocations of a trace, oldest first. *)
Definition subprocess_calls (t : Trace) : list (list string) :=
  omap (fun e => match e with SubprocessRun argv => Some argv | _ => None end) t.

(** ** A scripted world for concrete runs *)

Definition ok_response (status : Z) (reason_phrase : string) (u : string) : Response :=
  {| status_code := status; reason := reason_phrase; url := u;
     resp_headers := []; content := "" |}.

(** Every backend answers [status]; the fallback application answers 200;
    sub-processes, the file system and SMTP succeed; the clock shows the
    number of effects so far, in seconds. *)
Definition world_answering (status : Z) (reason_phrase : string) : Env :=
  {| net := fun _ c => Ok (ok_response status reason_phrase (call_url c));
     next_app := fun _ r => Ok (ok_response 200 "OK" (url_path r));
     proc := fun _ _ => Ok tt;
     file_system := fun _ _ => Ok tt;
     smtp := fun _ _ => Ok tt;
     clock := fun t => Z.of_nat (length t) |}.

(** No backend is reachable: every outbound call raises a connection error. *)
Definition world_unreachable : Env :=
  {| net := fun _ _ => Raise (RequestException "Connection refused");
     next_app := fun _ r => Ok (ok_response 200 "OK" (url_path r));
     proc := fun _ _ => Ok tt;
     file_system := fun _ _ => Ok tt;
     smtp := fun _ _ => Ok tt;
     clock := fun t => Z.of_nat (length t) |}.

Definition default_globals : Globals := module_globals empty_environ.

(** Every backend answers 200, but [docker-compose] exits with a
    non-zero status. *)
Definition world_compose_failing : Env :=
  {| net := fun _ c => Ok (ok_response 200 "OK" (call_url c));
     next_app := fun _ r => Ok (ok_response 200 "OK" (url_path r));
     proc := fun _ argv => Raise (CalledProcessError argv);
     file_system := fun _ _ => Ok tt;
     smtp := fun _ _ => Ok tt;
     clock := fun t => Z.of_nat (length t) |}.

(** [main] answers 500, [subapp1] refuses the connection, every other
    backend answers 200. *)
Definition world_subapp1_down : Env :=
  {| net := fun _ c =>
       if String.eqb (call_url c) "http://localhost:8001/health"
       then Raise (RequestException "Connection refused")
       else if String.eqb (call_url c) "http://localhost:8000/health"
       then Ok (ok_response 500 "Internal Server Error" (call_url c))
       else Ok (ok_response 200 "OK" (call_url c));
     next_app := fun _ r => Ok (ok_response 200 "OK" (url_path r));
     proc := fun _ _ => Ok tt;
     file_system := fun _ _ => Ok tt;
     smtp := fun _ _ => Ok tt;
     clock := fun t => Z.of_nat (length t) |}.

Definition post_request (path payload : string) : Request :=
  {| method := "POST"; url_path := path;
     headers := [("Content-Type", "application/json"); ("X-Trace", "abc")];
     body := payload |}.

Definition get_request (path : string) : Request :=
  {| method := "GET"; url_path := path; headers := []; body := "" |}.

(** ** Names used in the statements about [dispatch] *)

(** The 503 raised on line 128 for the exception [e]. *)
Definition unavailable (subapp_name : string) (e : Exn) : Exn :=
  HTTPException 503
    ("Subapp " +:+ subapp_name +:+ " is currently unavailable: " +:+ str_exn e).

(** The exception of [raise_for_status], if the status calls for one. *)
Definition status_error (r : Response) : option Exn :=
  match raise_for_status r [] with
  | (Raise e, _) => Some e
  | (Ok _, _) => None
  end.

(** ** Names used in the statements about the fleet, the monitor and the breaker *)

(** The route table and scaling factor of the scenario of section 8. *)
Definition billing_globals : Globals :=
  {| MAIN_APP_PORT := 8000;
     SUBAPP_PORTS := [("main", 8000); ("billing", 8001)];
     DOCKER_COMPOSE_FILE := "docker-compose.yml";
     SCALING_FACTOR := 2;
     HEALTH_CHECK_INTERVAL := 60;
     ALERT_EMAIL := "admin@example.com";
     SMTP_SERVER := "smtp.example.com";
     SMTP_PORT := 587;
     SMTP_USERNAME := "username";
     SMTP_PASSWORD := "password" |}.

(** The probe of one entry of the route table. *)
Definition probe_call (item : string * Z) : HttpCall := get_call (health_url item.2).

(** The command line of [restart_service]. *)
Definition restart_argv (subapp_name : string) : list string :=
  ["docker-compose"; "restart"; subapp_name].

(** The events of one probe answered with the response [r]. *)
Definition probe_events (name : string) (port : Z) (r : Response) : Trace :=
  HttpRequest (get_call (health_url port))
  :: (if negb (status_code r =? 200)
      then [LogError ("Health check failed for " +:+ name +:+ ". Status code: "
                      +:+ Py.str_int (status_code r))]
      else []).

(** Whether a call ended in [CircuitBreakerError]. *)
Definition refused {A} (r : Res A) : bool :=
  match r with
  | Raise e => is_CircuitBreakerError e
  | Ok _ => false
  end.




(** * The rest of [main.py] *)

(** ** [os.path.dirname] *)

Module PyPath.

(** The part of [p] up to and including its last [/]: [p[:p.rfind('/') + 1]]. *)
Fixpoint head_to_last_sep (p : string) : string :=
  match p with
  | EmptyString => EmptyString
  | String a p' =>
      match head_to_last_sep p' with
      | EmptyString => if Ascii.eqb a "/" then String a EmptyString else EmptyString
      | h => String a h
      end
  end.

(** [os.path.dirname(p)] of [posixpath]: the head up to the last [/],
    without its trailing slashes unless it consists of slashes only. *)
Definition dirname (p : string) : string :=
  let head := head_to_last_sep p in
  if String.eqb (Py.lstrip "/" head) "" then head else Py.rstrip "/" head.

End PyPath.

(** ** [scale_service] (lines 209-218) *)

Definition scale_service (g : Globals) (env : Env) (subapp_name : string) (scale_factor : Z)
  : M unit :=
  try_except
    (subprocess_run env
       ["docker-compose"; "-f"; DOCKER_COMPOSE_FILE g; "up"; "--scale";
        subapp_name +:+ "=" +:+ Py.str_int scale_factor; "-d"] ;;
     log_info ("Scaled " +:+ subapp_name +:+ " to " +:+ Py.str_int scale_factor +:+ " replicas"))
    is_CalledProcessError
    (fun e => log_error ("Failed to scale service " +:+ subapp_name +:+ ".") ;; throw e).

(** ** [DOCKERFILE_TEMPLATE] (lines 44-56) *)

(** The double-quote character. *)
Definition dq : string := String (ascii_of_nat 34) EmptyString.

(** A JSON-style string literal of the template. *)
Definition quoted (s : string) : string := dq +:+ s +:+ dq.

(** [DOCKERFILE_TEMPLATE.format(module_name=module_name)]: the template
    has the single replacement field [{module_name}]. *)
Definition DOCKERFILE_TEMPLATE_format (module_name : string) : string :=
  "
FROM python:3.10-slim

WORKDIR /app

COPY . /app

RUN pip install --no-cache-dir -r requirements.txt

EXPOSE 8000

CMD [" +:+ quoted "gunicorn" +:+ ", " +:+ quoted "-w" +:+ ", " +:+ quoted "4" +:+ ", "
  +:+ quoted "-k" +:+ ", " +:+ quoted "uvicorn.workers.UvicornWorker" +:+ ", "
  +:+ quoted (module_name +:+ ":app") +:+ ", " +:+ quoted "--bind" +:+ ", "
  +:+ quoted "0.0.0.0:8000" +:+ "]
".

(** ** Start-up: [build_docker_images] and [__ainit__] *)

(** The effects of the start-up code: those of the request path and of
    the monitor, and the ones only start-up performs.  As in [Event], an
    effect is recorded when it is attempted, whether or not it succeeds. *)
Inductive SysEvent :=
| Core (e : Event)
| SuperAinit
| NewLock
| MakeDirs (path : string)
| FileWrite (path content : string)
| CreateTask (coroutine : string)
| StartHttpServer (port : Z)
| SignalHandler (signum handler : string).

Definition SysTrace : Type := list SysEvent.

(** The request-path effects of a start-up trace, oldest first. *)
Definition core_trace (tx : SysTrace) : Trace :=
  omap (fun e => match e with Core c => Some c | _ => None end) tx.

(** The outside world seen by the start-up code: the world of the request
    path, which is shown the request-path effects so far, and the answers
    to the calls of start-up. *)
Record SysEnv := {
  sys_core : Env;
  makedirs : SysTrace -> string -> Res unit;
  open_write : SysTrace -> string -> Res unit;
  http_server : SysTrace -> Z -> Res unit;
  signal_signal : SysTrace -> string -> Res unit
}.

Definition MX (A : Type) : Type := SysTrace -> Res A * SysTrace.

Definition xret {A} (a : A) : MX A := fun tx => (Ok a, tx).

Definition xbind {A B} (c : MX A) (k : A -> MX B) : MX B :=
  fun tx =>
    match c tx with
    | (Ok a, tx') => k a tx'
    | (Raise e, tx') => (Raise e, tx')
    end.

Definition xthrow {A} (e : Exn) : MX A := fun tx => (Raise e, tx).

Definition xtry_except {A} (c : MX A) (catches : Exn -> bool) (h : Exn -> MX A) : MX A :=
  fun tx =>
    match c tx with
    | (Raise e, tx') => if catches e then h e tx' else (Raise e, tx')
    | r => r
    end.


Definition xask {A} (e : SysEvent) (answer : SysTrace -> Res A) : MX A :=
  fun tx => (answer tx, tx ++ [e]).

(** A computation of the request path run during start-up: it sees the
    request-path effects so far, and the effects it adds are appended. *)
Definition core {A} (c : M A) : MX A :=
  fun tx =>
    let t := core_trace tx in
    match c t with
    | (r, t') => (r, tx ++ map Core (drop (length t) t'))
    end.

Declare Scope sys_scope.
Delimit Scope sys_scope with sys.
Notation "x <- c ;;; k" := (xbind c (fun x => k))
  (at level 100, c at next level, right associativity) : sys_scope.
Notation "c ;;; k" := (xbind c (fun _ => k))
  (at level 100, right associativity) : sys_scope.
Local Open Scope sys_scope.

Section StartUp.

Variable g : Globals.
Variable senv : SysEnv.

(** The path chosen on line 173. *)
Definition dockerfile_path (subapp_name : string) : string :=
  if negb (String.eqb subapp_name "main")
  then "./subapps/" +:+ subapp_name +:+ "/Dockerfile" else "./Dockerfile".

(** The body of the [for] loop of lines 168-180 for one name. *)
Definition build_one (subapp_name : string) : MX unit :=
  let dockerfile_content := DOCKERFILE_TEMPLATE_format subapp_name in
  let path := dockerfile_path subapp_name in
  xask (MakeDirs (PyPath.dirname path)) (fun tx => makedirs senv tx (PyPath.dirname path)) ;;;
  xask (FileWrite path dockerfile_content) (fun tx => open_write senv tx path) ;;;
  core (subprocess_run (sys_core senv) ["docker-compose"; "build"; subapp_name]) ;;;
  core (log_info ("Built Docker image for " +:+ subapp_name +:+ " successfully.")).

(** The [for] loop of lines 168-180. *)
Fixpoint build_loop (names : list string) : MX unit :=
  match names with
  | [] => xret tt
  | subapp_name :: rest => build_one subapp_name ;;; build_loop rest
  end.

(** [build_docker_images] (lines 166-183) *)
Definition build_docker_images : MX unit :=
  xtry_except
    (build_loop (Py.keys (SUBAPP_PORTS g)))
    is_CalledProcessError
    (fun e => core (log_error "Failed to build Docker images.") ;;; xthrow e).




End StartUp.

(** ** More readers of traces *)

(** The values assigned to [request.scope['root_path']]. *)
Definition root_paths (t : Trace) : list string :=
  omap (fun e => match e with
                 | ScopeSet key value => if String.eqb key "root_path" then Some value else None
                 | _ => None
                 end) t.

(** The durations slept. *)
Definition sleeps (t : Trace) : list Z :=
  omap (fun e => match e with Sleep s => Some s | _ => None end) t.


(** The Dockerfiles written in a start-up trace: path and content. *)
Definition dockerfiles (tx : SysTrace) : list (string * string) :=
  omap (fun e => match e with FileWrite p c => Some (p, c) | _ => None end) tx.

(** A start-up world in which every call of start-up succeeds. *)
Definition sys_world (env : Env) : SysEnv :=
  {| sys_core := env;
     makedirs := fun _ _ => Ok tt;
     open_write := fun _ _ => Ok tt;
     http_server := fun _ _ => Ok tt;
     signal_signal := fun _ _ => Ok tt |}.

(** Building [subapp1] fails; everything else succeeds. *)
Definition world_build_failing : Env :=
  {| net := fun _ c => Ok (ok_response 200 "OK" (call_url c));
     next_app := fun _ r => Ok (ok_response 200 "OK" (url_path r));
     proc := fun _ argv =>
       if bool_decide (argv = ["docker-compose"; "build"; "subapp1"])
       then Raise (CalledProcessError argv) else Ok tt;
     file_system := fun _ _ => Ok tt;
     smtp := fun _ _ => Ok tt;
     clock := fun t => Z.of_nat (length t) |}.

(** The [docker-compose] binary is missing: starting the sub-process
    raises [FileNotFoundError], which is not a [CalledProcessError]. *)
Definition world_compose_missing : Env :=
  {| net := fun _ c => Ok (ok_response 200 "OK" (call_url c));
     next_app := fun _ r => Ok (ok_response 200 "OK" (url_path r));
     proc := fun _ _ => Raise (OtherError "[Errno 2] No such file or directory: 'docker-compose'");
     file_system := fun _ _ => Ok tt;
     smtp := fun _ _ => Ok tt;
     clock := fun t => Z.of_nat (length t) |}.

(** The effects a health-monitor tick can perform: a GET, a log line, a
    sub-process. *)
Definition monitor_event (e : Event) : bool :=
  match e with
  | HttpRequest _ | LogError _ | LogInfo _ | SubprocessRun _ => true
  | _ => false
  end.

(** No backend is reachable and [docker-compose] exits with a non-zero
    status. *)
Definition world_all_down : Env :=
  {| net := fun _ _ => Raise (RequestException "Connection refused");
     next_app := fun _ r => Ok (ok_response 200 "OK" (url_path r));
     proc := fun _ argv => Raise (CalledProcessError argv);
     file_system := fun _ _ => Ok tt;
     smtp := fun _ _ => Ok tt;
     clock := fun t => Z.of_nat (length t) |}.

(** Every outbound call fails with an exception that is not a
    [requests.RequestException]. *)
Definition world_net_crash : Env :=
  {| net := fun _ _ => Raise (OtherError "MemoryError");
     next_app := fun _ r => Ok (ok_response 200 "OK" (url_path r));
     proc := fun _ _ => Ok tt;
     file_system := fun _ _ => Ok tt;
     smtp := fun _ _ => Ok tt;
     clock := fun t => Z.of_nat (length t) |}.

(** The events of one image build that succeeds (lines 170-180). *)
Definition build_events (subapp_name : string) : SysTrace :=
  [MakeDirs (PyPath.dirname (dockerfile_path subapp_name));
   FileWrite (dockerfile_path subapp_name) (DOCKERFILE_TEMPLATE_format subapp_name);
   Core (SubprocessRun ["docker-compose"; "build"; subapp_name]);
   Core (LogInfo ("Built Docker image for " +:+ subapp_name +:+ " successfully."))].

(** * Verification *)

(** ** Checks of the primitives on small inputs *)

Example strip_root : Py.strip "/" "/" = "".
Proof. reflexivity. Qed.

Example strip_nested : Py.strip "/" "//subapp1/items/" = "subapp1/items".
Proof. reflexivity. Qed.

Example split_first_nested : Py.split_first "/" "subapp1/items" = "subapp1".
Proof. reflexivity. Qed.

Example str_int_port : Py.str_int 8001 = "8001".
Proof. reflexivity. Qed.

Example default_ports :
  SUBAPP_PORTS (module_globals empty_environ)
  = [("main", 8000); ("subapp1", 8001); ("subapp2", 8002)].
Proof. reflexivity. Qed.

(** ** Facts about traces and the Python primitives *)

Lemma http_calls_app t1 t2 : http_calls (t1 ++ t2) = http_calls t1 ++ http_calls t2.
Proof. apply omap_app. Qed.

Lemma fallback_calls_app t1 t2 :
  fallback_calls (t1 ++ t2) = fallback_calls t1 ++ fallback_calls t2.
Proof. apply omap_app. Qed.

Lemma subprocess_calls_app t1 t2 :
  subprocess_calls (t1 ++ t2) = subprocess_calls t1 ++ subprocess_calls t2.
Proof. apply omap_app. Qed.


Lemma dict_get_set_same {V} k (v : V) d : Py.dict_get k (Py.dict_set k v d) = Some v.
Proof.
  induction d as [|[k' v'] d IH]; simpl.
  - by rewrite String.eqb_refl.
  - destruct (String.eqb k k') eqn:E; simpl.
    + by rewrite String.eqb_refl.
    + by rewrite E.
Qed.

Lemma dict_get_set_other {V} k k' (v : V) d :
  k <> k' -> Py.dict_get k' (Py.dict_set k v d) = Py.dict_get k' d.
Proof.
  intros Hne. induction d as [|[k0 v0] d IH]; simpl.
  - destruct (String.eqb k' k) eqn:E; [|done].
    apply String.eqb_eq in E. congruence.
  - destruct (String.eqb k k0) eqn:E; simpl.
    + apply String.eqb_eq in E. subst k0.
      destruct (String.eqb k' k) eqn:E'; [|done].
      apply String.eqb_eq in E'. congruence.
    + by rewrite IH.
Qed.

Lemma dict_get_None_keys {V} k (d : Py.dict V) :
  Py.dict_get k d = None <-> k ∉ Py.keys d.
Proof.
  induction d as [|[k' v'] d IH]; simpl.
  - split; [intros _; apply not_elem_of_nil | done].
  - rewrite not_elem_of_cons. destruct (String.eqb k k') eqn:E.
    + apply String.eqb_eq in E. split; [done | intros [? _]; done].
    + apply String.eqb_neq in E. rewrite IH. tauto.
Qed.

(** [main] is always a key of the route table built at import. *)
Lemma main_port environ :
  Py.dict_get "main" (SUBAPP_PORTS (module_globals environ))
  = Some (MAIN_APP_PORT (module_globals environ)).
Proof. reflexivity. Qed.

(** ** [dispatch] *)

Section DispatchFacts.

Variable g : Globals.
Variable env : Env.

Lemma raise_for_status_run r t :
  raise_for_status r t
  = (match status_error r with Some e => Raise e | None => Ok tt end, t).
Proof.
  unfold status_error, raise_for_status.
  repeat case_match; simplify_eq; try done; unfold throw, ret in *; simplify_eq; done.
Qed.

Lemma status_error_is_request_exception r e :
  status_error r = Some e -> is_RequestException e = true.
Proof.
  unfold status_error, raise_for_status.
  repeat case_match; unfold throw, ret in *; intros; simplify_eq; done.
Qed.

Lemma status_error_range r :
  is_Some (status_error r) <-> 400 <= status_code r < 600.
Proof.
  unfold status_error, raise_for_status.
  destruct (400 <=? status_code r) eqn:E1; destruct (status_code r <? 500) eqn:E2;
    destruct (500 <=? status_code r) eqn:E3; destruct (status_code r <? 600) eqn:E4;
    simpl; unfold throw, ret; split; intros H;
    try (by eexists); try (destruct H as [? H]; discriminate H); lia.
Qed.

(** The run of [dispatch] on a request whose name is a key of the route
    table, spelled out: one assignment to the scope, one GET, and the log
    line when the GET or the status check raised. *)
Lemma dispatch_known request port t :
  Py.dict_get (subapp_name_of request) (SUBAPP_PORTS g) = Some port ->
  let name := subapp_name_of request in
  let t1 := t ++ [ScopeSet "root_path" ("/" +:+ name)] in
  let c := get_call (forward_url port request) in
  let failed e := (Raise (unavailable name e),
                   t1 ++ [HttpRequest c] ++ [LogError ("Error processing request for " +:+ name)]) in
  dispatch g env request t =
    match net env t1 c with
    | Ok r =>
        match status_error r with
        | Some e => failed e
        | None => (Ok r, t1 ++ [HttpRequest c])
        end
    | Raise e =>
        if is_RequestException e then failed e
        else (Raise e, t1 ++ [HttpRequest c])
    end.
Proof.
  intros Hport. simpl. unfold dispatch. rewrite Hport.
  unfold bind, emit, try_except, requests_get, ask, log_error, emit, throw, unavailable.
  destruct (net env _ _) as [r|e] eqn:Hnet.
  - rewrite raise_for_status_run.
    destruct (status_error r) as [e|] eqn:Hs.
    + rewrite (status_error_is_request_exception _ _ Hs). by rewrite <- !app_assoc.
    + done.
  - destruct (is_RequestException e); [by rewrite <- !app_assoc | done].
Qed.

(** The calls in the trace of such a run. *)
Lemma dispatch_known_calls request port t :
  Py.dict_get (subapp_name_of request) (SUBAPP_PORTS g) = Some port ->
  http_calls (snd (dispatch g env request t))
  = http_calls t ++ [get_call (forward_url port request)]
  /\ fallback_calls (snd (dispatch g env request t)) = fallback_calls t.
Proof.
  intros Hport. rewrite (dispatch_known _ _ _ Hport). simpl.
  destruct (net env _ _) as [r|e]; [destruct (status_error r) | destruct (is_RequestException e)];
    simpl; rewrite ?http_calls_app, ?fallback_calls_app; simpl;
    rewrite ?app_nil_r; done.
Qed.

(** C7, as the code has it: a request whose path is not empty once its
    outer slashes are removed and whose first path segment is not a key of
    the route table goes to the fallback handler: [dispatch] makes the
    single call [call_next(request)] with the request as received,
    performs no other effect, and its outcome is the fallback's outcome,
    with no error of its own. *)
Theorem dispatch_unknown_falls_through request t :
  Py.strip "/" (url_path request) <> "" ->
  Py.dict_get (Py.split_first "/" (Py.strip "/" (url_path request))) (SUBAPP_PORTS g) = None ->
  dispatch g env request t = (next_app env t request, t ++ [CallNext request]).
Proof.
  intros Hpath Hnone. unfold dispatch, subapp_name_of.
  apply String.eqb_neq in Hpath. rewrite Hpath, Hnone. reflexivity.
Qed.

(** C1, as the code has it: [dispatch] consults no breaker.  For a request
    whose name is a key of the route table it always attempts the outbound
    GET, exactly once, never calls the fallback, and produces its
    outcome (the 503 included) only after that attempt, from the answer
    of the network alone. *)
Theorem dispatch_known_always_attempts request port t :
  Py.dict_get (subapp_name_of request) (SUBAPP_PORTS g) = Some port ->
  let name := subapp_name_of request in
  let c := get_call (forward_url port request) in
  let answer := net env (t ++ [ScopeSet "root_path" ("/" +:+ name)]) c in
  let res := dispatch g env request t in
  http_calls (snd res) = http_calls t ++ [c]
  /\ fallback_calls (snd res) = fallback_calls t
  /\ fst res = match answer with
               | Ok r => match status_error r with
                         | Some e => Raise (unavailable name e)
                         | None => Ok r
                         end
               | Raise e => if is_RequestException e
                            then Raise (unavailable name e) else Raise e
               end.
Proof.
  intros Hport. simpl.
  destruct (dispatch_known_calls _ _ t Hport) as [Hcalls Hfallback].
  split; [done | split; [done |]].
  rewrite (dispatch_known _ _ _ Hport). simpl.
  by destruct (net env _ _) as [r|e];
    [destruct (status_error r) | destruct (is_RequestException e)].
Qed.

(** C3, as the code has it: when the backend answers, a status outside
    400..599 makes [dispatch] return that response unchanged and log
    nothing, while a 4xx or 5xx status makes it log the failure and raise
    the 503 built from the [HTTPError] of [raise_for_status]; no breaker
    outcome is recorded in either case. *)
Theorem dispatch_backend_answer request port t r :
  Py.dict_get (subapp_name_of request) (SUBAPP_PORTS g) = Some port ->
  let name := subapp_name_of request in
  let t1 := t ++ [ScopeSet "root_path" ("/" +:+ name)] in
  let c := get_call (forward_url port request) in
  net env t1 c = Ok r ->
  (~ 400 <= status_code r < 600 ->
     dispatch g env request t = (Ok r, t1 ++ [HttpRequest c]))
  /\ (400 <= status_code r < 600 ->
       exists m,
         dispatch g env request t
         = (Raise (HTTPException 503
                     ("Subapp " +:+ name +:+ " is currently unavailable: " +:+ m)),
            t1 ++ [HttpRequest c; LogError ("Error processing request for " +:+ name)])).
Proof.
  intros Hport name t1 c Hnet.
  pose proof (dispatch_known _ _ t Hport) as Hrun. simpl in Hrun.
  fold name t1 c in Hrun. rewrite Hnet in Hrun.
  pose proof (status_error_range r) as Hrange.
  destruct (status_error r) as [e|] eqn:Hs; split; intros Hcode.
  - exfalso. apply Hcode, Hrange. by eexists.
  - exists (str_exn e). by rewrite Hrun.
  - by rewrite Hrun.
  - apply Hrange in Hcode. by destruct Hcode.
Qed.

(** C4, as the code has it: the forwarded request is [requests.get(url)]
    with the URL [http://localhost:<port><original path>]: always a GET,
    with no body, none of the inbound headers and no timeout; the method,
    body and headers of the inbound request have no influence on the run. *)
Theorem dispatch_forwards_plain_get request port t :
  Py.dict_get (subapp_name_of request) (SUBAPP_PORTS g) = Some port ->
  http_calls (snd (dispatch g env request t))
  = http_calls t
    ++ [{| call_method := "GET";
           call_url := "http://localhost:" +:+ Py.str_int port +:+ url_path request;
           call_headers := []; call_body := None; call_timeout := None |}]
  /\ forall request', url_path request' = url_path request ->
       dispatch g env request' t = dispatch g env request t.
Proof.
  intros Hport. split.
  - by destruct (dispatch_known_calls _ _ t Hport) as [-> _].
  - intros request' Hpath.
    assert (subapp_name_of request' = subapp_name_of request) as Hname
      by (unfold subapp_name_of; by rewrite Hpath).
    rewrite (dispatch_known request port t Hport).
    rewrite (dispatch_known request' port t) by (by rewrite Hname).
    simpl. unfold forward_url. by rewrite Hname, Hpath.
Qed.

End DispatchFacts.

(** The name of a request with an empty path, or whose first segment is
    [main], is [main]. *)
Lemma subapp_name_main request :
  Py.strip "/" (url_path request) = ""
  \/ Py.split_first "/" (Py.strip "/" (url_path request)) = "main" ->
  subapp_name_of request = "main".
Proof.
  unfold subapp_name_of. intros [Hempty | Hmain].
  - by rewrite Hempty.
  - by destruct (String.eqb _ "").
Qed.

(** C9: with the route table built at import, a request with an empty path
    and a request whose first path segment is [main] are both forwarded
    with one GET to [http://localhost:<MAIN_APP_PORT><path>], the gateway's
    own port, and are not handed to the fallback handler. *)
Theorem dispatch_main_forwards_to_own_port environ env request t :
  Py.strip "/" (url_path request) = ""
  \/ Py.split_first "/" (Py.strip "/" (url_path request)) = "main" ->
  let globals := module_globals environ in
  let res := dispatch globals env request t in
  http_calls (snd res)
  = http_calls t
    ++ [get_call ("http://localhost:" +:+ Py.str_int (MAIN_APP_PORT globals)
                  +:+ url_path request)]
  /\ fallback_calls (snd res) = fallback_calls t.
Proof.
  intros Hmain globals res. subst res.
  apply subapp_name_main in Hmain.
  apply dispatch_known_calls. rewrite Hmain. apply main_port.
Qed.

Lemma dispatch_main_forwards_to_own_port_root :
  (Py.strip "/" "/" = "" \/ Py.split_first "/" (Py.strip "/" "/") = "main")
  /\ http_calls (snd (dispatch default_globals (world_answering 200 "OK") (get_request "/") []))
     = [get_call "http://localhost:8000/"]
  /\ fallback_calls (snd (dispatch default_globals (world_answering 200 "OK")
                            (get_request "/") [])) = [].
Proof.
  split; [left; reflexivity |].
  apply (dispatch_main_forwards_to_own_port empty_environ (world_answering 200 "OK")
           (get_request "/") []).
  left; reflexivity.
Defined.

Lemma dispatch_unknown_falls_through_other :
  Py.strip "/" (url_path (get_request "/reports/2024")) <> ""
  /\ Py.dict_get (Py.split_first "/" (Py.strip "/" (url_path (get_request "/reports/2024"))))
       (SUBAPP_PORTS default_globals) = None
  /\ dispatch default_globals (world_answering 200 "OK") (get_request "/reports/2024") []
     = (Ok (ok_response 200 "OK" "/reports/2024"), [CallNext (get_request "/reports/2024")]).
Proof.
  split; [discriminate | split; [reflexivity |]].
  apply (dispatch_unknown_falls_through default_globals (world_answering 200 "OK")
           (get_request "/reports/2024") []); [discriminate | reflexivity].
Defined.

(** C7 fails on the code: the first path segment of [/] is the empty
    text, which is not a key of the route table, yet [dispatch] does not
    call the fallback handler: it forwards the request to [main]. *)
Lemma dispatch_root_skips_fallback :
  let request := get_request "/" in
  let res := dispatch default_globals (world_answering 200 "OK") request [] in
  Py.split_first "/" (Py.strip "/" (url_path request)) = ""
  /\ Py.dict_get "" (SUBAPP_PORTS default_globals) = None
  /\ fallback_calls res.2 = []
  /\ http_calls res.2 = [get_call "http://localhost:8000/"].
Proof. vm_compute. repeat split. Qed.

Lemma dispatch_known_always_attempts_unreachable :
  Py.dict_get (subapp_name_of (get_request "/subapp1/x")) (SUBAPP_PORTS default_globals)
  = Some 8001
  /\ http_calls (snd (dispatch default_globals world_unreachable (get_request "/subapp1/x") []))
     = [get_call "http://localhost:8001/subapp1/x"]
  /\ fallback_calls (snd (dispatch default_globals world_unreachable
                            (get_request "/subapp1/x") [])) = []
  /\ fst (dispatch default_globals world_unreachable (get_request "/subapp1/x") [])
     = Raise (unavailable "subapp1" (RequestException "Connection refused")).
Proof.
  split; [reflexivity |].
  apply (dispatch_known_always_attempts default_globals world_unreachable
           (get_request "/subapp1/x") 8001 []).
  reflexivity.
Defined.

(** C1 fails on the code: after three failed calls the breaker of
    [subapp1] is Open and its gate refuses calls, yet [dispatch] for
    [/subapp1/x] still performs the outbound GET before it answers 503. *)
Lemma dispatch_ignores_open_breaker :
  let env := world_unreachable in
  let func := requests_get env "http://localhost:8001/subapp1/x" in
  let '(_, self, t) :=
    breaker_calls default_globals env [func; func; func]
      (breaker_init "subapp1" None None) [] in
  SpecBreaker.state (cb_base _ self) = SpecBreaker.Open
  /\ fst (SpecBreaker.isCallPermitted (clock env t) (cb_base _ self)) = false
  /\ dispatch default_globals env (get_request "/subapp1/x") t
     = (Raise (HTTPException 503
                 "Subapp subapp1 is currently unavailable: Connection refused"),
        t ++ [ScopeSet "root_path" "/subapp1";
              HttpRequest (get_call "http://localhost:8001/subapp1/x");
              LogError "Error processing request for subapp1"]).
Proof. vm_compute. repeat split. Qed.

Lemma dispatch_backend_answer_ok :
  Py.dict_get (subapp_name_of (get_request "/subapp2/a")) (SUBAPP_PORTS default_globals)
  = Some 8002
  /\ net (world_answering 302 "Found") [ScopeSet "root_path" "/subapp2"]
       (get_call "http://localhost:8002/subapp2/a")
     = Ok (ok_response 302 "Found" "http://localhost:8002/subapp2/a")
  /\ (~ 400 <= 302 < 600 ->
      dispatch default_globals (world_answering 302 "Found") (get_request "/subapp2/a") []
      = (Ok (ok_response 302 "Found" "http://localhost:8002/subapp2/a"),
         [ScopeSet "root_path" "/subapp2";
          HttpRequest (get_call "http://localhost:8002/subapp2/a")])).
Proof.
  split; [reflexivity | split; [reflexivity |]].
  apply (dispatch_backend_answer default_globals (world_answering 302 "Found")
           (get_request "/subapp2/a") 8002 []
           (ok_response 302 "Found" "http://localhost:8002/subapp2/a"));
    reflexivity.
Defined.

(** C3 fails on the code: the backend answers 404 and [dispatch] raises a
    503 instead of returning that response. *)
Lemma dispatch_404_becomes_503 :
  let env := world_answering 404 "Not Found" in
  let request := get_request "/subapp1/items" in
  net env [ScopeSet "root_path" "/subapp1"] (get_call "http://localhost:8001/subapp1/items")
  = Ok (ok_response 404 "Not Found" "http://localhost:8001/subapp1/items")
  /\ fst (dispatch default_globals env request [])
     = Raise (HTTPException 503
                "Subapp subapp1 is currently unavailable: 404 Client Error: Not Found for url: http://localhost:8001/subapp1/items")
  /\ fst (dispatch default_globals env request [])
     <> Ok (ok_response 404 "Not Found" "http://localhost:8001/subapp1/items").
Proof. vm_compute. repeat split. discriminate. Qed.

Lemma dispatch_forwards_plain_get_post :
  Py.dict_get (subapp_name_of (post_request "/subapp1/orders" "{}"))
    (SUBAPP_PORTS default_globals) = Some 8001
  /\ http_calls (snd (dispatch default_globals (world_answering 200 "OK")
                        (post_request "/subapp1/orders" "{}") []))
     = [{| call_method := "GET"; call_url := "http://localhost:8001/subapp1/orders";
           call_headers := []; call_body := None; call_timeout := None |}]
  /\ (forall request', url_path request' = "/subapp1/orders" ->
        dispatch default_globals (world_answering 200 "OK") request' []
        = dispatch default_globals (world_answering 200 "OK")
            (post_request "/subapp1/orders" "{}") []).
Proof.
  split; [reflexivity |].
  apply (dispatch_forwards_plain_get default_globals (world_answering 200 "OK")
           (post_request "/subapp1/orders" "{}") 8001 []).
  reflexivity.
Defined.

(** C4 fails on the code: an inbound POST with a body and headers is
    forwarded as a GET without body, headers or timeout. *)
Lemma dispatch_post_forwarded_as_get :
  let request := post_request "/subapp1/orders" "{}" in
  exists c,
    http_calls (snd (dispatch default_globals (world_answering 200 "OK") request [])) = [c]
    /\ call_method c <> method request
    /\ call_body c = None /\ body request = "{}"
    /\ call_headers c = [] /\ headers request <> []
    /\ call_timeout c = None.
Proof.
  eexists. vm_compute. repeat split; discriminate.
Qed.

(** ** [generate_docker_compose] *)

Lemma dict_set_fresh {V} k (v : V) d : k ∉ Py.keys d -> Py.dict_set k v d = d ++ [(k, v)].
Proof.
  induction d as [|[k' v'] d IH]; simpl; [done |].
  rewrite not_elem_of_cons. intros [Hne Hnotin].
  apply String.eqb_neq in Hne. rewrite Hne. by rewrite IH.
Qed.

Lemma keys_app {V} (d1 d2 : Py.dict V) : Py.keys (d1 ++ d2) = Py.keys d1 ++ Py.keys d2.
Proof. apply map_app. Qed.

Lemma fill_services_fresh g items services :
  NoDup (Py.keys services ++ Py.keys items) ->
  fill_services g items services
  = services ++ map (fun item => (item.1, service_for g item.1 item.2)) items.
Proof.
  revert services. induction items as [|[name port] items IH]; intros services Hnd; simpl.
  - by rewrite app_nil_r.
  - simpl in Hnd. rewrite dict_set_fresh.
    + rewrite IH.
      * by rewrite <- app_assoc.
      * rewrite keys_app. simpl. by rewrite <- app_assoc.
    + apply NoDup_app in Hnd as (_ & Hdisj & _).
      intros Hin. apply (Hdisj _ Hin). left.
Qed.

Lemma dict_get_map {V W} (f : string -> V -> W) k (d : Py.dict V) :
  Py.dict_get k (map (fun item => (item.1, f item.1 item.2)) d)
  = f k <$> Py.dict_get k d.
Proof.
  induction d as [|[k' v'] d IH]; simpl; [done |].
  destruct (String.eqb k k') eqn:E; [|done].
  apply String.eqb_eq in E. by subst.
Qed.

(** C8: for every route table (a dictionary, so without repeated keys) and
    every scaling factor, the generated manifest holds exactly one service
    per entry of the table, under the same names and in the same order;
    each service has the scaling factor as its replica count, the
    on-failure restart policy with 3 attempts, a 5s delay and a 120s
    window, and the curl health probe with its interval, timeout, retries
    and start period; that manifest is what [generate_docker_compose]
    dumps to the compose file. *)
Theorem manifest_one_service_per_route g env t :
  NoDup (Py.keys (SUBAPP_PORTS g)) ->
  let services := compose_services (compose_dict g) in
  length services = length (SUBAPP_PORTS g)
  /\ Py.keys services = Py.keys (SUBAPP_PORTS g)
  /\ (forall name port,
        Py.dict_get name (SUBAPP_PORTS g) = Some port ->
        exists svc,
          Py.dict_get name services = Some svc
          /\ svc_replicas svc = SCALING_FACTOR g
          /\ svc_ports svc = [Py.str_int port +:+ ":8000"]
          /\ svc_restart_policy svc
             = {| rp_condition := "on-failure"; rp_delay := "5s";
                  rp_max_attempts := 3; rp_window := "120s" |}
          /\ svc_healthcheck svc
             = {| hp_test := ["CMD-SHELL";
                              "curl --fail http://localhost:" +:+ Py.str_int port
                              +:+ "/health || exit 1"];
                  hp_interval := "30s"; hp_timeout := "10s";
                  hp_retries := 3; hp_start_period := "10s" |})
  /\ exists rest,
       snd (generate_docker_compose g env t)
       = t ++ YamlDump (DOCKER_COMPOSE_FILE g) (compose_dict g) :: rest.
Proof.
  intros Hnd services.
  assert (services = map (fun item => (item.1, service_for g item.1 item.2)) (SUBAPP_PORTS g))
    as Hservices.
  { subst services. unfold compose_dict. simpl. by rewrite fill_services_fresh. }
  split; [by rewrite Hservices, length_map |].
  split.
  { rewrite Hservices. unfold Py.keys. rewrite map_map. done. }
  split.
  { intros name port Hget. exists (service_for g name port).
    rewrite Hservices, dict_get_map, Hget. done. }
  unfold generate_docker_compose, bind, ask, log_info, emit.
  destruct (file_system env t _); simpl.
  - eexists. by rewrite <- app_assoc.
  - by eexists.
Qed.

Lemma manifest_billing_scenario :
  NoDup (Py.keys (SUBAPP_PORTS billing_globals))
  /\ length (compose_services (compose_dict billing_globals)) = 2%nat
  /\ Py.keys (compose_services (compose_dict billing_globals)) = ["main"; "billing"]
  /\ exists svc,
       Py.dict_get "billing" (compose_services (compose_dict billing_globals)) = Some svc
       /\ svc_replicas svc = 2.
Proof.
  assert (NoDup (Py.keys (SUBAPP_PORTS billing_globals))) as Hnd.
  { simpl. repeat constructor; rewrite ?elem_of_cons, ?elem_of_nil; intuition discriminate. }
  split; [exact Hnd |].
  destruct (manifest_one_service_per_route billing_globals (world_answering 200 "OK") [] Hnd)
    as (Hlen & Hkeys & Hservice & _).
  split; [exact Hlen | split; [exact Hkeys |]].
  destruct (Hservice "billing" 8001 eq_refl) as (svc & Hget & Hreplicas & _).
  exists svc. split; [exact Hget | exact Hreplicas].
Defined.

Example manifest_billing_replicas :
  svc_replicas <$> Py.dict_get "billing" (compose_services (compose_dict billing_globals))
  = Some 2
  /\ svc_replicas <$> Py.dict_get "main" (compose_services (compose_dict billing_globals))
     = Some 2.
Proof. split; reflexivity. Qed.

(** ** [health_check] *)

Section HealthFacts.

Variable g : Globals.
Variable env : Env.

(** One turn of the loop whose probe is answered. *)
Lemma probe_loop_answered name port rest cur t r :
  net env t (get_call (health_url port)) = Ok r ->
  probe_loop env ((name, port) :: rest) cur t
  = probe_loop env rest (Some name) (t ++ probe_events name port r).
Proof.
  intros Hnet. simpl. unfold requests_get, ask, probe_events. rewrite Hnet.
  destruct (negb (status_code r =? 200)); simpl.
  - unfold log_error, emit. by rewrite <- app_assoc.
  - done.
Qed.

(** One turn of the loop whose probe raises. *)
Lemma probe_loop_raised name port rest cur t e :
  net env t (get_call (health_url port)) = Raise e ->
  probe_loop env ((name, port) :: rest) cur t
  = (Raise e, Some name, t ++ [HttpRequest (get_call (health_url port))]).
Proof.
  intros Hnet. simpl. unfold requests_get, ask. by rewrite Hnet.
Qed.

Lemma probe_loop_app l1 l2 cur t :
  probe_loop env (l1 ++ l2) cur t
  = match probe_loop env l1 cur t with
    | (Ok _, cur1, t1) => probe_loop env l2 cur1 t1
    | other => other
    end.
Proof.
  revert cur t. induction l1 as [|[name port] l1 IH]; intros cur t; [done |].
  destruct (net env t (get_call (health_url port))) as [r|e] eqn:Hnet.
  - rewrite <- app_comm_cons, !(probe_loop_answered _ _ _ _ _ _ Hnet). apply IH.
  - by rewrite <- app_comm_cons, !(probe_loop_raised _ _ _ _ _ _ Hnet).
Qed.

(** The loop itself starts no sub-process, whatever the probes answer. *)
Lemma probe_loop_no_subprocess items cur t :
  subprocess_calls (probe_loop env items cur t).2 = subprocess_calls t.
Proof.
  revert cur t. induction items as [|[name port] items IH]; intros cur t; [done |].
  destruct (net env t (get_call (health_url port))) as [r|e] eqn:Hnet.
  - rewrite (probe_loop_answered _ _ _ _ _ _ Hnet), IH, subprocess_calls_app.
    unfold probe_events. destruct (negb _); simpl; by rewrite app_nil_r.
  - rewrite (probe_loop_raised _ _ _ _ _ _ Hnet). simpl.
    rewrite subprocess_calls_app. simpl. by rewrite app_nil_r.
Qed.

(** A loop that runs to its end has probed every entry, in order. *)
Lemma probe_loop_completed_calls items cur t cur' t' :
  probe_loop env items cur t = (Ok tt, cur', t') ->
  http_calls t' = http_calls t ++ map probe_call items.
Proof.
  revert cur t. induction items as [|[name port] items IH]; intros cur t Hrun.
  - simpl in Hrun. simplify_eq. by rewrite app_nil_r.
  - destruct (net env t (get_call (health_url port))) as [r|e] eqn:Hnet.
    + rewrite (probe_loop_answered _ _ _ _ _ _ Hnet) in Hrun.
      rewrite (IH _ _ Hrun), http_calls_app. unfold probe_events.
      destruct (negb _); simpl; by rewrite <- app_assoc.
    + by rewrite (probe_loop_raised _ _ _ _ _ _ Hnet) in Hrun.
Qed.

(** The trace of [restart_service]. *)
Lemma restart_service_calls name t :
  subprocess_calls (restart_service env name t).2 = subprocess_calls t ++ [restart_argv name]
  /\ http_calls (restart_service env name t).2 = http_calls t.
Proof.
  unfold restart_service, try_except, bind, subprocess_run, ask, log_info, log_error,
    emit, throw.
  destruct (proc env t _) as [[]|e]; [| destruct (is_CalledProcessError e)]; simpl;
    rewrite ?subprocess_calls_app, ?http_calls_app; simpl; by rewrite ?app_nil_r.
Qed.

(** C5, as the code has it: on every tick, whatever happened in earlier
    ticks, a probe that is answered is followed by the log line exactly
    when its status is not 200, after which the loop goes on with the next
    backend, and no answered backend is restarted; the backend whose probe
    raises a [RequestException] is logged with the text of the exception
    and [docker-compose restart] is run for that backend, once, the
    outcome of the tick being the outcome of that command; a tick whose
    probes are all answered restarts nothing. *)
Theorem tick_restarts_only_on_network_error t :
  (forall name port rest cur t0 r,
     net env t0 (get_call (health_url port)) = Ok r ->
     probe_loop env ((name, port) :: rest) cur t0
     = probe_loop env rest (Some name)
         (t0 ++ HttpRequest (get_call (health_url port))
             :: (if negb (status_code r =? 200)
                 then [LogError ("Health check failed for " +:+ name
                                 +:+ ". Status code: " +:+ Py.str_int (status_code r))]
                 else [])))
  /\ (forall before name port after cur t1 e,
        SUBAPP_PORTS g = before ++ (name, port) :: after ->
        probe_loop env before None t = (Ok tt, cur, t1) ->
        net env t1 (get_call (health_url port)) = Raise e ->
        is_RequestException e = true ->
        let t2 := t1 ++ [HttpRequest (get_call (health_url port));
                         LogError ("Error during health check: " +:+ str_exn e)] in
        let restart := ["docker-compose"; "restart"; name] in
        subprocess_calls t1 = subprocess_calls t
        /\ health_check_tick g env t
           = (proc env t2 restart,
              t2 ++ SubprocessRun restart
                 :: match proc env t2 restart with
                    | Ok _ => [LogInfo ("Restarted service: " +:+ name)]
                    | Raise e' =>
                        if is_CalledProcessError e'
                        then [LogError ("Failed to restart service " +:+ name +:+ ".")]
                        else []
                    end))
  /\ (forall cur t1,
        probe_loop env (SUBAPP_PORTS g) None t = (Ok tt, cur, t1) ->
        health_check_tick g env t = (Ok tt, t1)
        /\ subprocess_calls t1 = subprocess_calls t).
Proof.
  split; [intros; by apply probe_loop_answered |]. split.
  - intros before name port after cur t1 e Hports Hbefore Hnet Hexn t2 restart.
    pose proof (probe_loop_no_subprocess before None t) as Hloop.
    rewrite Hbefore in Hloop. simpl in Hloop. split; [exact Hloop |].
    unfold health_check_tick.
    rewrite Hports, probe_loop_app, Hbefore, (probe_loop_raised _ _ _ _ _ _ Hnet), Hexn.
    unfold bind, log_error, emit, restart_service, try_except, bind, subprocess_run, ask,
      log_info, log_error, emit, throw.
    rewrite <- app_assoc. simpl. fold t2. fold restart.
    destruct (proc env t2 restart) as [[]|e']; [| destruct (is_CalledProcessError e')];
      simpl; by rewrite <- ?app_assoc.
  - intros cur t1 Hrun.
    pose proof (probe_loop_no_subprocess (SUBAPP_PORTS g) None t) as Hloop.
    unfold health_check_tick. rewrite Hrun in *. by simpl in Hloop.
Qed.

(** C10: when, in a tick, the probes of the backends before [name] are
    all answered and the probe of [name] raises a network error, the
    backends after [name] are not probed in that tick and the tick makes
    exactly one restart, for [name], and none for the backends answered
    before it, whatever their status; and a tick whose probes are all
    answered, with whatever status, probes every backend and restarts
    nothing. *)
Theorem tick_stops_at_network_error t :
  (forall before name port after cur t1 e,
     SUBAPP_PORTS g = before ++ (name, port) :: after ->
     probe_loop env before None t = (Ok tt, cur, t1) ->
     net env t1 (get_call (health_url port)) = Raise e ->
     is_RequestException e = true ->
     http_calls (health_check_tick g env t).2
     = http_calls t ++ map probe_call (before ++ [(name, port)])
     /\ subprocess_calls (health_check_tick g env t).2
        = subprocess_calls t ++ [["docker-compose"; "restart"; name]])
  /\ (forall cur t1,
        probe_loop env (SUBAPP_PORTS g) None t = (Ok tt, cur, t1) ->
        health_check_tick g env t = (Ok tt, t1)
        /\ http_calls t1 = http_calls t ++ map probe_call (SUBAPP_PORTS g)
        /\ subprocess_calls t1 = subprocess_calls t).
Proof.
  split.
  - intros before name port after cur t1 e Hports Hbefore Hnet Hexn.
    unfold health_check_tick.
    rewrite Hports, probe_loop_app, Hbefore, (probe_loop_raised _ _ _ _ _ _ Hnet), Hexn.
    unfold bind, log_error, emit.
    destruct (restart_service_calls name
                ((t1 ++ [HttpRequest (get_call (health_url port))])
                   ++ [LogError ("Error during health check: " +:+ str_exn e)]))
      as [-> ->].
    pose proof (probe_loop_no_subprocess before None t) as Hloop.
    rewrite Hbefore in Hloop. simpl in Hloop.
    rewrite !http_calls_app, !subprocess_calls_app, Hloop,
      (probe_loop_completed_calls _ _ _ _ _ Hbefore), map_app.
    simpl. by rewrite !app_nil_r, <- app_assoc.
  - intros cur t1 Hrun.
    pose proof (probe_loop_no_subprocess (SUBAPP_PORTS g) None t) as Hloop.
    unfold health_check_tick. rewrite Hrun in *. simpl in Hloop.
    split; [done | split; [| done]].
    by apply (probe_loop_completed_calls _ _ _ _ _ Hrun).
Qed.

End HealthFacts.

Lemma tick_stops_at_network_error_subapp1 :
  SUBAPP_PORTS default_globals = [("main", 8000)] ++ ("subapp1", 8001) :: [("subapp2", 8002)]
  /\ probe_loop world_subapp1_down [("main", 8000)] None []
     = (Ok tt, Some "main",
        [HttpRequest (get_call "http://localhost:8000/health");
         LogError "Health check failed for main. Status code: 500"])
  /\ http_calls (health_check_tick default_globals world_subapp1_down []).2
     = [get_call "http://localhost:8000/health"; get_call "http://localhost:8001/health"]
  /\ subprocess_calls (health_check_tick default_globals world_subapp1_down []).2
     = [["docker-compose"; "restart"; "subapp1"]].
Proof.
  split; [reflexivity | split; [reflexivity |]].
  exact (proj1 (tick_stops_at_network_error default_globals world_subapp1_down [])
           [("main", 8000)] "subapp1" 8001 [("subapp2", 8002)] (Some "main")
           [HttpRequest (get_call "http://localhost:8000/health");
            LogError "Health check failed for main. Status code: 500"]
           (RequestException "Connection refused")
           eq_refl eq_refl eq_refl eq_refl).
Defined.

Lemma tick_restarts_only_on_network_error_subapp1 :
  SUBAPP_PORTS default_globals = [("main", 8000)] ++ ("subapp1", 8001) :: [("subapp2", 8002)]
  /\ net world_subapp1_down
       [HttpRequest (get_call "http://localhost:8000/health");
        LogError "Health check failed for main. Status code: 500"]
       (get_call "http://localhost:8001/health")
     = Raise (RequestException "Connection refused")
  /\ health_check_tick default_globals world_subapp1_down []
     = (Ok tt,
        [HttpRequest (get_call "http://localhost:8000/health");
         LogError "Health check failed for main. Status code: 500";
         HttpRequest (get_call "http://localhost:8001/health");
         LogError "Error during health check: Connection refused";
         SubprocessRun ["docker-compose"; "restart"; "subapp1"];
         LogInfo "Restarted service: subapp1"]).
Proof.
  split; [reflexivity | split; [reflexivity |]].
  exact (proj2 (proj1 (proj2 (tick_restarts_only_on_network_error
                                default_globals world_subapp1_down []))
                  [("main", 8000)] "subapp1" 8001 [("subapp2", 8002)] (Some "main")
                  [HttpRequest (get_call "http://localhost:8000/health");
                   LogError "Health check failed for main. Status code: 500"]
                  (RequestException "Connection refused")
                  eq_refl eq_refl eq_refl eq_refl)).
Defined.

(** C5 fails on the code: every probe of the tick is answered 500, and
    the tick logs the three failures but restarts no backend. *)
Lemma tick_non_200_not_restarted :
  let t := (health_check_tick default_globals (world_answering 500 "Internal Server Error") []).2 in
  http_calls t
  = [get_call "http://localhost:8000/health"; get_call "http://localhost:8001/health";
     get_call "http://localhost:8002/health"]
  /\ In (LogError "Health check failed for subapp1. Status code: 500") t
  /\ subprocess_calls t = [].
Proof. vm_compute. repeat split. right; right; right; left. reflexivity. Qed.

(** Two consecutive ticks in which the first probe raises: each tick makes
    its own restart. *)
Example two_failing_ticks_two_restarts :
  subprocess_calls (health_check default_globals world_unreachable 2 []).2
  = [["docker-compose"; "restart"; "main"]; ["docker-compose"; "restart"; "main"]].
Proof. reflexivity. Qed.

(** ** [stop_services] and [graceful_shutdown] *)

(** C6, as the code has it: when [docker-compose down] fails,
    [stop_services] raises the error again, after logging it if it is a
    [CalledProcessError] and without a log line for any other failure;
    [graceful_shutdown] does not catch it, so the error leaves the
    shutdown handler at that point, before the closing log line and the
    exit call. *)
Theorem shutdown_failure_is_reraised g env t e :
  let down := ["docker-compose"; "-f"; DOCKER_COMPOSE_FILE g; "down"] in
  let t0 := t ++ [LogInfo "Received signal to shut down. Stopping services..."] in
  proc env t0 down = Raise e ->
  let logged := if is_CalledProcessError e
                then [LogError "Failed to stop Docker Compose services."] else [] in
  stop_services g env t0 = (Raise e, t0 ++ SubprocessRun down :: logged)
  /\ graceful_shutdown g env t = (Raise e, t0 ++ SubprocessRun down :: logged).
Proof.
  intros down t0 Hproc logged.
  assert (stop_services g env t0 = (Raise e, t0 ++ SubprocessRun down :: logged)) as Hstop.
  { unfold stop_services, try_except, bind, subprocess_run, ask. fold down.
    rewrite Hproc. subst logged. unfold log_error, emit, throw.
    destruct (is_CalledProcessError e); [by rewrite <- app_assoc | done]. }
  split; [exact Hstop |].
  unfold graceful_shutdown, bind at 1. unfold log_info at 1, emit at 1. fold t0.
  unfold bind at 1. by rewrite Hstop.
Qed.

Lemma shutdown_failure_is_reraised_compose_down :
  let down := ["docker-compose"; "-f"; "docker-compose.yml"; "down"] in
  let t0 := [LogInfo "Received signal to shut down. Stopping services..."] in
  proc world_compose_failing t0 down = Raise (CalledProcessError down)
  /\ graceful_shutdown default_globals world_compose_failing []
     = (Raise (CalledProcessError down),
        t0 ++ [SubprocessRun down; LogError "Failed to stop Docker Compose services."]).
Proof.
  split; [reflexivity |].
  apply (shutdown_failure_is_reraised default_globals world_compose_failing []
           (CalledProcessError ["docker-compose"; "-f"; "docker-compose.yml"; "down"])).
  reflexivity.
Defined.

(** The same shutdown when the binary is missing: the error leaves the
    handler without any error log line. *)
Example shutdown_missing_binary_unlogged :
  graceful_shutdown default_globals world_compose_missing []
  = (Raise (OtherError "[Errno 2] No such file or directory: 'docker-compose'"),
     [LogInfo "Received signal to shut down. Stopping services...";
      SubprocessRun ["docker-compose"; "-f"; "docker-compose.yml"; "down"]]).
Proof. reflexivity. Qed.

(** C6 fails on the code: the failure of [docker-compose down] is raised
    out of [graceful_shutdown] (escalated), and the handler never reaches
    its closing log line. *)
Lemma shutdown_failure_escalates :
  let res := graceful_shutdown default_globals world_compose_failing [] in
  res.1 = Raise (CalledProcessError ["docker-compose"; "-f"; "docker-compose.yml"; "down"])
  /\ In (LogError "Failed to stop Docker Compose services.") res.2
  /\ ~ In (LogInfo "Services stopped. Exiting...") res.2.
Proof.
  vm_compute. split; [reflexivity | split].
  - right; right; left; reflexivity.
  - intros H. repeat (destruct H as [H | H]; [discriminate H |]). exact H.
Qed.

(** ** [CustomCircuitBreaker] *)


Section BreakerFacts.

Variable g : Globals.
Variable env : Env.




End BreakerFacts.




(** * Further properties of [main.py] *)

(** ** The name parsed from the path (lines 116-117) *)

Lemma string_app_nil (b : string) : "" +:+ b = b.
Proof. reflexivity. Qed.

Lemma string_app_cons x (a b : string) : String x a +:+ b = String x (a +:+ b).
Proof. reflexivity. Qed.

Ltac string_simpl := rewrite ?string_app_cons, ?string_app_nil; simpl.

Lemma string_app_assoc (a b c : string) : (a +:+ b) +:+ c = a +:+ (b +:+ c).
Proof. induction a as [|x a IH]; string_simpl; [done | by rewrite IH]. Qed.

Lemma lstrip_prefix c pre s : Py.lstrip c pre = "" -> Py.lstrip c (pre +:+ s) = Py.lstrip c s.
Proof.
  induction pre as [|a pre IH]; string_simpl; [done |].
  destruct (Ascii.eqb a c); [exact IH | discriminate].
Qed.

Lemma rstrip_sep c s : Py.rstrip c (s +:+ String c "") = Py.rstrip c s.
Proof.
  induction s as [|a s IH]; string_simpl.
  - by rewrite Ascii.eqb_refl.
  - by rewrite IH.
Qed.

Lemma rstrip_suffix c post s : Py.lstrip c post = "" -> Py.rstrip c (s +:+ post) = Py.rstrip c s.
Proof.
  revert s. induction post as [|a post IH]; intros s Hpost.
  - clear Hpost. induction s as [|x s IHs]; string_simpl; [done | by rewrite IHs].
  - simpl in Hpost. destruct (Ascii.eqb a c) eqn:E; [| discriminate].
    apply Ascii.eqb_eq in E. subst a.
    change (String c post) with (String c "" +:+ post).
    rewrite <- string_app_assoc, IH by done. apply rstrip_sep.
Qed.

Lemma lstrip_suffix c post s :
  Py.lstrip c post = "" ->
  Py.lstrip c (s +:+ post) = if String.eqb (Py.lstrip c s) "" then "" else Py.lstrip c s +:+ post.
Proof.
  intros Hpost. induction s as [|a s IH]; string_simpl; [done |].
  destruct (Ascii.eqb a c); [exact IH | done].
Qed.

(** A stripped text is empty or begins with another character than [c]. *)
Lemma lstrip_head c s :
  Py.lstrip c s = "" \/ exists a r, Py.lstrip c s = String a r /\ a <> c.
Proof.
  induction s as [|a s IH]; simpl; [by left |].
  destruct (Ascii.eqb a c) eqn:E; [exact IH |].
  right. exists a, s. split; [done | by apply Ascii.eqb_neq].
Qed.

Lemma rstrip_head c a s : a <> c -> exists r, Py.rstrip c (String a s) = String a r.
Proof.
  intros Hne. simpl. destruct (Py.rstrip c s); [| by eexists].
  apply Ascii.eqb_neq in Hne. rewrite Hne. by eexists.
Qed.

Lemma split_first_no_sep c s : ~ In c (list_ascii_of_string (Py.split_first c s)).
Proof.
  induction s as [|a s IH]; simpl; [tauto |].
  destruct (Ascii.eqb a c) eqn:E; simpl; [tauto |].
  apply Ascii.eqb_neq in E. intros [Heq | Hin]; [done | by apply IH].
Qed.

(** X1: the backend name that [dispatch] looks up is never empty and
    never contains a slash, whatever the path of the request. *)
Theorem subapp_name_is_a_segment request :
  subapp_name_of request <> ""
  /\ ~ In "/"%char (list_ascii_of_string (subapp_name_of request)).
Proof.
  unfold subapp_name_of.
  destruct (String.eqb (Py.strip "/" (url_path request)) "") eqn:Hempty.
  - split; [done |]. simpl. intros H.
    repeat (destruct H as [H | H]; [discriminate H |]). exact H.
  - split; [| apply split_first_no_sep].
    apply String.eqb_neq in Hempty. unfold Py.strip in *.
    destruct (lstrip_head "/" (url_path request)) as [Hl | (a & r & Hl & Hne)].
    + rewrite Hl in Hempty. done.
    + rewrite Hl. destruct (rstrip_head "/" a r Hne) as [r' ->].
      simpl. apply Ascii.eqb_neq in Hne. by rewrite Hne.
Qed.

(** X2: slashes added in front of or behind a path do not change the
    backend name: a request for [pre ++ path ++ post], with [pre] and
    [post] made of slashes only, is given the name of the request for
    [path]. *)
Theorem subapp_name_ignores_outer_slashes request request' pre post :
  Py.lstrip "/" pre = "" ->
  Py.lstrip "/" post = "" ->
  url_path request' = pre +:+ url_path request +:+ post ->
  subapp_name_of request' = subapp_name_of request.
Proof.
  intros Hpre Hpost Hpath. unfold subapp_name_of. rewrite Hpath.
  assert (Py.strip "/" (pre +:+ url_path request +:+ post) = Py.strip "/" (url_path request))
    as ->; [| done].
  unfold Py.strip. rewrite (lstrip_prefix _ _ _ Hpre), (lstrip_suffix _ _ _ Hpost).
  destruct (String.eqb (Py.lstrip "/" (url_path request)) "") eqn:E.
  - apply String.eqb_eq in E. by rewrite E.
  - by apply rstrip_suffix.
Qed.

Lemma subapp_name_ignores_outer_slashes_example :
  Py.lstrip "/" "//" = "" /\ Py.lstrip "/" "/" = ""
  /\ url_path (get_request "//subapp1/items/") = "//" +:+ url_path (get_request "subapp1/items") +:+ "/"
  /\ subapp_name_of (get_request "//subapp1/items/") = subapp_name_of (get_request "subapp1/items").
Proof.
  split; [reflexivity | split; [reflexivity | split; [reflexivity |]]].
  apply (subapp_name_ignores_outer_slashes (get_request "subapp1/items")
           (get_request "//subapp1/items/") "//" "/"); reflexivity.
Defined.

(** ** More about [dispatch] *)

Lemma root_paths_app t1 t2 : root_paths (t1 ++ t2) = root_paths t1 ++ root_paths t2.
Proof. apply omap_app. Qed.

Lemma sleeps_app t1 t2 : sleeps (t1 ++ t2) = sleeps t1 ++ sleeps t2.
Proof. apply omap_app. Qed.

Lemma alert_messages_app t1 t2 :
  alert_messages (t1 ++ t2) = alert_messages t1 ++ alert_messages t2.
Proof. apply omap_app. Qed.

(** Rewriting the readers of a trace through appended events. *)
Ltac read_trace :=
  rewrite ?http_calls_app, ?fallback_calls_app, ?subprocess_calls_app, ?root_paths_app,
    ?sleeps_app, ?alert_messages_app;
  simpl; rewrite ?app_nil_r.

(** X3: [dispatch] assigns [request.scope['root_path']] exactly when the
    name is a key of the route table, once, to [/<name>]; a request handed
    to the fallback handler leaves the scope untouched. *)
Theorem dispatch_root_path g env request t :
  root_paths (dispatch g env request t).2
  = root_paths t
    ++ match Py.dict_get (subapp_name_of request) (SUBAPP_PORTS g) with
       | Some _ => ["/" +:+ subapp_name_of request]
       | None => []
       end.
Proof.
  destruct (Py.dict_get (subapp_name_of request) (SUBAPP_PORTS g)) as [port|] eqn:Hget.
  - rewrite (dispatch_known g env request port t Hget). simpl.
    destruct (net env _ _) as [r|e];
      [destruct (status_error r) | destruct (is_RequestException e)];
      simpl; by read_trace.
  - unfold dispatch. rewrite Hget. unfold call_next, ask. simpl. by read_trace.
Qed.

(** X4: whatever the request and whatever the world answers, [dispatch]
    starts no sub-process, sends no alert and never sleeps. *)
Theorem dispatch_stays_on_request_path g env request t :
  subprocess_calls (dispatch g env request t).2 = subprocess_calls t
  /\ alert_messages (dispatch g env request t).2 = alert_messages t
  /\ sleeps (dispatch g env request t).2 = sleeps t.
Proof.
  destruct (Py.dict_get (subapp_name_of request) (SUBAPP_PORTS g)) as [port|] eqn:Hget.
  - rewrite (dispatch_known g env request port t Hget). simpl.
    destruct (net env _ _) as [r|e];
      [destruct (status_error r) | destruct (is_RequestException e)];
      simpl; by read_trace.
  - unfold dispatch. rewrite Hget. unfold call_next, ask. simpl. by read_trace.
Qed.

(** X5: when the outbound call of [dispatch] raises, a
    [requests.RequestException] is logged once and becomes a 503 whose
    detail names the backend and carries the text of the exception; any
    other exception leaves [dispatch] unchanged and unlogged. *)
Theorem dispatch_call_raises g env request port t e :
  Py.dict_get (subapp_name_of request) (SUBAPP_PORTS g) = Some port ->
  let name := subapp_name_of request in
  let t1 := t ++ [ScopeSet "root_path" ("/" +:+ name)] in
  let c := get_call (forward_url port request) in
  net env t1 c = Raise e ->
  dispatch g env request t
  = if is_RequestException e
    then (Raise (HTTPException 503
                   ("Subapp " +:+ name +:+ " is currently unavailable: " +:+ str_exn e)),
          t1 ++ [HttpRequest c; LogError ("Error processing request for " +:+ name)])
    else (Raise e, t1 ++ [HttpRequest c]).
Proof.
  intros Hget name t1 c Hnet.
  rewrite (dispatch_known g env request port t Hget). simpl.
  fold name t1 c. by rewrite Hnet.
Qed.

Lemma dispatch_call_raises_unreachable :
  Py.dict_get (subapp_name_of (get_request "/subapp2/report")) (SUBAPP_PORTS default_globals)
  = Some 8002
  /\ net world_unreachable [ScopeSet "root_path" "/subapp2"]
       (get_call "http://localhost:8002/subapp2/report")
     = Raise (RequestException "Connection refused")
  /\ dispatch default_globals world_unreachable (get_request "/subapp2/report") []
     = (Raise (HTTPException 503 "Subapp subapp2 is currently unavailable: Connection refused"),
        [ScopeSet "root_path" "/subapp2";
         HttpRequest (get_call "http://localhost:8002/subapp2/report");
         LogError "Error processing request for subapp2"]).
Proof.
  split; [reflexivity | split; [reflexivity |]].
  apply (dispatch_call_raises default_globals world_unreachable
           (get_request "/subapp2/report") 8002 [] (RequestException "Connection refused"));
    reflexivity.
Defined.

(** ** The [docker-compose] wrappers *)

(** The shape shared by [start_services], [stop_services],
    [restart_service] and [scale_service]. *)
Lemma compose_wrapper_run env argv done_msg failed_msg t :
  try_except
    (subprocess_run env argv ;; log_info done_msg)
    is_CalledProcessError
    (fun e => log_error failed_msg ;; throw e) t
  = (proc env t argv,
     t ++ SubprocessRun argv
       :: match proc env t argv with
          | Ok _ => [LogInfo done_msg]
          | Raise e => if is_CalledProcessError e then [LogError failed_msg] else []
          end).
Proof.
  unfold try_except, bind, subprocess_run, ask, log_info, log_error, emit, throw.
  destruct (proc env t argv) as [[]|e]; simpl.
  - by rewrite <- app_assoc.
  - destruct (is_CalledProcessError e); [by rewrite <- app_assoc | done].
Qed.

(** X6: the four [docker-compose] wrappers are transparent: each runs one
    command, the one of its name, and its outcome is the outcome of that
    command, so a failure is never swallowed and a success never turned
    into an error. *)
Theorem compose_wrappers_transparent g env name factor t :
  let file := DOCKER_COMPOSE_FILE g in
  let up := ["docker-compose"; "-f"; file; "up"; "-d"] in
  let down := ["docker-compose"; "-f"; file; "down"] in
  let restart := ["docker-compose"; "restart"; name] in
  let scale := ["docker-compose"; "-f"; file; "up"; "--scale";
                name +:+ "=" +:+ Py.str_int factor; "-d"] in
  ((start_services g env t).1 = proc env t up
   /\ subprocess_calls (start_services g env t).2 = subprocess_calls t ++ [up])
  /\ ((stop_services g env t).1 = proc env t down
      /\ subprocess_calls (stop_services g env t).2 = subprocess_calls t ++ [down])
  /\ ((restart_service env name t).1 = proc env t restart
      /\ subprocess_calls (restart_service env name t).2 = subprocess_calls t ++ [restart])
  /\ ((scale_service g env name factor t).1 = proc env t scale
      /\ subprocess_calls (scale_service g env name factor t).2
         = subprocess_calls t ++ [scale]).
Proof.
  simpl. unfold start_services, stop_services, restart_service, scale_service.
  rewrite !compose_wrapper_run. simpl.
  repeat split; read_trace;
    match goal with |- context [proc env t ?argv] =>
      destruct (proc env t argv) as [[]|e]; [| destruct (is_CalledProcessError e)] end;
    simpl; by rewrite ?app_nil_r.
Qed.

(** What the wrappers log.  [restart_service] and [scale_service]
    write one info line naming the service after a success, one error
    line naming it after a [CalledProcessError], and nothing when the
    command raises anything else (the exception then passes through
    unlogged). *)
Lemma compose_wrappers_log env g name factor t :
  (restart_service env name t).2
  = t ++ SubprocessRun ["docker-compose"; "restart"; name]
      :: match proc env t ["docker-compose"; "restart"; name] with
         | Ok _ => [LogInfo ("Restarted service: " +:+ name)]
         | Raise e =>
             if is_CalledProcessError e
             then [LogError ("Failed to restart service " +:+ name +:+ ".")] else []
         end
  /\ let scale := ["docker-compose"; "-f"; DOCKER_COMPOSE_FILE g; "up"; "--scale";
                   name +:+ "=" +:+ Py.str_int factor; "-d"] in
     (scale_service g env name factor t).2
     = t ++ SubprocessRun scale
         :: match proc env t scale with
            | Ok _ => [LogInfo ("Scaled " +:+ name +:+ " to " +:+ Py.str_int factor
                                +:+ " replicas")]
            | Raise e =>
                if is_CalledProcessError e
                then [LogError ("Failed to scale service " +:+ name +:+ ".")] else []
            end.
Proof.
  unfold restart_service, scale_service. by rewrite !compose_wrapper_run.
Qed.

(** ** [graceful_shutdown] *)

(** The run of [graceful_shutdown], spelled out. *)
Lemma graceful_shutdown_run g env t :
  let t0 := t ++ [LogInfo "Received signal to shut down. Stopping services..."] in
  let down := ["docker-compose"; "-f"; DOCKER_COMPOSE_FILE g; "down"] in
  graceful_shutdown g env t
  = match proc env t0 down with
    | Ok _ =>
        (Raise (NameError "sys"),
         t0 ++ [SubprocessRun down;
                LogInfo "Docker Compose services stopped successfully.";
                LogInfo "Services stopped. Exiting..."])
    | Raise e =>
        (Raise e,
         t0 ++ SubprocessRun down
            :: (if is_CalledProcessError e
                then [LogError "Failed to stop Docker Compose services."] else []))
    end.
Proof.
  simpl. unfold graceful_shutdown, stop_services, try_except, bind, subprocess_run, ask,
    log_info, log_error, emit, throw, sys_exit.
  destruct (proc env _ _) as [[]|e]; [| destruct (is_CalledProcessError e)];
    simpl; by rewrite <- ?app_assoc.
Qed.

(** X7: [graceful_shutdown] never returns normally.  When stopping the
    fleet fails the error of [stop_services] leaves the handler; when it
    succeeds the handler logs both lines and then raises [NameError],
    because line 241 reads the name [sys], which the module never
    imports. *)
Theorem graceful_shutdown_always_raises g env t :
  let t0 := t ++ [LogInfo "Received signal to shut down. Stopping services..."] in
  let down := ["docker-compose"; "-f"; DOCKER_COMPOSE_FILE g; "down"] in
  (graceful_shutdown g env t).1 <> Ok tt
  /\ match proc env t0 down with
     | Ok _ =>
         graceful_shutdown g env t
         = (Raise (NameError "sys"),
            t0 ++ [SubprocessRun down;
                   LogInfo "Docker Compose services stopped successfully.";
                   LogInfo "Services stopped. Exiting..."])
     | Raise e => (graceful_shutdown g env t).1 = Raise e
     end.
Proof.
  simpl. rewrite graceful_shutdown_run.
  destruct (proc env _ _) as [[]|e]; simpl; [done |].
  by destruct (is_CalledProcessError e).
Qed.

(** ** [send_alert] and [CustomCircuitBreaker.call] over any base class *)

(** X8: [send_alert] never raises.  It makes one SMTP session, with the
    subject [Alert: Service Issue in <name>], the configured sender and
    recipient and the message as content, and then logs either the
    delivery or, when the session raised, the failure. *)
Theorem send_alert_never_raises g env Base (self : CustomCircuitBreaker Base) message t :
  let msg := {| msg_content := message;
                msg_subject := "Alert: Service Issue in " +:+ cb_name Base self;
                msg_from := SMTP_USERNAME g;
                msg_to := ALERT_EMAIL g |} in
  send_alert g env Base self message t
  = (Ok tt,
     t ++ [SmtpSession (SMTP_SERVER g) (SMTP_PORT g) (SMTP_USERNAME g) (SMTP_PASSWORD g) msg;
           match smtp env t msg with
           | Ok _ => LogInfo ("Alert sent for " +:+ cb_name Base self +:+ " issue.")
           | Raise e => LogError ("Failed to send alert email: " +:+ str_exn e)
           end]).
Proof.
  simpl. unfold send_alert, try_except, bind, ask, log_info, log_error, emit.
  destruct (smtp env t _) as [[]|e]; simpl; by rewrite <- app_assoc.
Qed.

(** X9: whatever the base class does, [CustomCircuitBreaker.call] hands
    on exactly what [super().call] returned or raised and keeps the name
    of the breaker; it adds events only when that outcome is
    [CircuitBreakerError], and then exactly one alert, whether or not the
    alert can be delivered. *)
Theorem call_keeps_outcome g env Base
    (base_call : forall A : Type, M A -> MS Base A) A (func : M A)
    (self : CustomCircuitBreaker Base) t :
  let '(r, b, t1) := base_call A func (cb_base Base self) t in
  exists t2,
    call g env Base base_call func self t
    = (r, {| cb_base := b; cb_name := cb_name Base self |}, t2)
    /\ alert_messages t2
       = alert_messages t1
         ++ (if refused r
             then [{| msg_content := "Circuit breaker triggered for " +:+ cb_name Base self
                                     +:+ ". Service temporarily unavailable.";
                      msg_subject := "Alert: Service Issue in " +:+ cb_name Base self;
                      msg_from := SMTP_USERNAME g;
                      msg_to := ALERT_EMAIL g |}]
             else [])
    /\ (refused r = false -> t2 = t1).
Proof.
  unfold call.
  destruct (base_call A func (cb_base Base self) t) as [[[a|e] b] t1]; simpl.
  - exists t1. by rewrite app_nil_r.
  - destruct (is_CircuitBreakerError e) eqn:He.
    + unfold bind, log_error, emit, throw, send_alert, try_except, bind, ask, log_info,
        log_error, emit.
      destruct (smtp env _ _) as [[]|e']; simpl;
        (eexists; split; [reflexivity |]; split; [| done]); by read_trace.
    + exists t1. by rewrite app_nil_r.
Qed.

(** ** More about [health_check] *)

Lemma probe_loop_events env items cur t :
  exists d, (probe_loop env items cur t).2 = t ++ d /\ forallb monitor_event d = true.
Proof.
  revert cur t. induction items as [|[name port] items IH]; intros cur t.
  - exists []. by rewrite app_nil_r.
  - destruct (net env t (get_call (health_url port))) as [r|e] eqn:Hnet.
    + rewrite (probe_loop_answered env _ _ _ _ _ _ Hnet).
      destruct (IH (Some name) (t ++ probe_events name port r)) as (d & -> & Hd).
      exists (probe_events name port r ++ d). split; [by rewrite app_assoc |].
      rewrite forallb_app, Hd. unfold probe_events. by destruct (negb _).
    + rewrite (probe_loop_raised env _ _ _ _ _ _ Hnet). simpl. by eexists.
Qed.

(** The events added by a tick are of the three kinds of the monitor. *)
Lemma health_check_tick_adds g env t :
  exists d, (health_check_tick g env t).2 = t ++ d /\ forallb monitor_event d = true.
Proof.
  unfold health_check_tick.
  destruct (probe_loop_events env (SUBAPP_PORTS g) None t) as (d & Hloop & Hd).
  destruct (probe_loop env (SUBAPP_PORTS g) None t) as [[[[]|e] cur] t1];
    simpl in Hloop; subst t1; simpl; [by exists d |].
  destruct (is_RequestException e); [| by exists d].
  unfold bind, log_error, emit. destruct cur as [name|].
  - unfold restart_service. rewrite compose_wrapper_run. simpl.
    eexists. rewrite <- !app_assoc. split; [reflexivity |].
    rewrite forallb_app, Hd. simpl.
    by destruct (proc env _ _) as [[]|e']; [| destruct (is_CalledProcessError e')].
  - unfold throw. simpl. eexists. rewrite <- app_assoc. split; [reflexivity |].
    by rewrite forallb_app, Hd.
Qed.

(** Events of these kinds are invisible to the other readers of a trace. *)
Lemma monitor_events_read d :
  forallb monitor_event d = true ->
  sleeps d = [] /\ alert_messages d = [] /\ fallback_calls d = [] /\ root_paths d = [].
Proof.
  intros Hd. induction d as [|e d IH]; [done |].
  simpl in Hd. apply andb_prop in Hd as [He Hd]. destruct (IH Hd) as (H1 & H2 & H3 & H4).
  unfold sleeps, alert_messages, fallback_calls, root_paths in *.
  destruct e; try discriminate He; simpl; by rewrite ?H1, ?H2, ?H3, ?H4.
Qed.

(** X10: within a tick the monitor only issues GETs, writes log lines and
    starts sub-processes: it never sleeps, never sends an alert (it does
    not touch any breaker), never calls the fallback handler and never
    assigns a request scope. *)
Theorem health_check_tick_events g env t :
  exists d,
    (health_check_tick g env t).2 = t ++ d
    /\ forallb monitor_event d = true
    /\ sleeps (t ++ d) = sleeps t
    /\ alert_messages (t ++ d) = alert_messages t
    /\ fallback_calls (t ++ d) = fallback_calls t
    /\ root_paths (t ++ d) = root_paths t.
Proof.
  destruct (health_check_tick_adds g env t) as (d & Hrun & Hd).
  exists d. split; [done | split; [done |]].
  destruct (monitor_events_read d Hd) as (H1 & H2 & H3 & H4).
  read_trace. by rewrite H1, H2, H3, H4, !app_nil_r.
Qed.

(** X11: the monitor sleeps [HEALTH_CHECK_INTERVAL] once after every tick
    that ends normally, and nowhere else: a run of [n] iterations that
    ends normally has slept exactly [n] times. *)
Theorem health_check_sleeps_once_per_tick g env n t :
  (health_check g env n t).1 = Ok tt ->
  sleeps (health_check g env n t).2 = sleeps t ++ replicate n (HEALTH_CHECK_INTERVAL g).
Proof.
  revert t. induction n as [|n IH]; intros t Hok; simpl in *.
  - by rewrite app_nil_r.
  - unfold bind in *. unfold emit in *.
    destruct (health_check_tick_adds g env t) as (d & Hrun & Hd).
    apply monitor_events_read in Hd as (Hsleeps & _).
    destruct (health_check_tick g env t) as [[[]|e] t1]; simpl in *; [| discriminate Hok].
    subst t1. rewrite (IH _ Hok), !sleeps_app, Hsleeps. simpl.
    by rewrite app_nil_r, <- app_assoc.
Qed.

Lemma health_check_sleeps_once_per_tick_two :
  (health_check default_globals (world_answering 200 "OK") 2 []).1 = Ok tt
  /\ sleeps (health_check default_globals (world_answering 200 "OK") 2 []).2 = [60; 60].
Proof.
  split; [reflexivity |].
  apply (health_check_sleeps_once_per_tick default_globals (world_answering 200 "OK") 2 []).
  reflexivity.
Defined.

(** X12: a restart that fails ends the monitor.  When the probe of a
    backend raises a network error and the restart command then raises,
    that exception leaves [health_check] at once, for any number of
    remaining iterations: nothing is slept, no later backend and no later
    tick is probed; only a [CalledProcessError] is logged first. *)
Theorem monitor_ends_on_restart_failure g env t before name port after cur t1 e e' n :
  SUBAPP_PORTS g = before ++ (name, port) :: after ->
  probe_loop env before None t = (Ok tt, cur, t1) ->
  net env t1 (get_call (health_url port)) = Raise e ->
  is_RequestException e = true ->
  let t2 := t1 ++ [HttpRequest (get_call (health_url port));
                   LogError ("Error during health check: " +:+ str_exn e)] in
  proc env t2 ["docker-compose"; "restart"; name] = Raise e' ->
  health_check g env (S n) t
  = (Raise e',
     t2 ++ SubprocessRun ["docker-compose"; "restart"; name]
        :: (if is_CalledProcessError e'
            then [LogError ("Failed to restart service " +:+ name +:+ ".")] else [])).
Proof.
  intros Hports Hbefore Hnet Hexn t2 Hproc. simpl. unfold bind at 1.
  unfold health_check_tick.
  rewrite Hports, probe_loop_app, Hbefore, (probe_loop_raised env _ _ _ _ _ _ Hnet), Hexn.
  unfold bind, log_error, emit, restart_service. rewrite compose_wrapper_run.
  rewrite <- app_assoc. simpl. fold t2. by rewrite Hproc.
Qed.

Lemma monitor_ends_on_restart_failure_all_down :
  SUBAPP_PORTS default_globals = [] ++ ("main", 8000) :: [("subapp1", 8001); ("subapp2", 8002)]
  /\ health_check default_globals world_all_down 5 []
     = (Raise (CalledProcessError ["docker-compose"; "restart"; "main"]),
        [HttpRequest (get_call "http://localhost:8000/health");
         LogError "Error during health check: Connection refused";
         SubprocessRun ["docker-compose"; "restart"; "main"];
         LogError "Failed to restart service main."]).
Proof.
  split; [reflexivity |].
  apply (monitor_ends_on_restart_failure default_globals world_all_down [] [] "main" 8000
           [("subapp1", 8001); ("subapp2", 8002)] None []
           (RequestException "Connection refused")
           (CalledProcessError ["docker-compose"; "restart"; "main"]) 4);
    reflexivity.
Defined.

(** X13: an exception of a probe that is not a
    [requests.RequestException] is not handled by the monitor: it leaves
    the tick, and with it [health_check], without a log line and without
    a restart. *)
Theorem monitor_ends_on_other_exception g env t before name port after cur t1 e n :
  SUBAPP_PORTS g = before ++ (name, port) :: after ->
  probe_loop env before None t = (Ok tt, cur, t1) ->
  net env t1 (get_call (health_url port)) = Raise e ->
  is_RequestException e = false ->
  health_check g env (S n) t = (Raise e, t1 ++ [HttpRequest (get_call (health_url port))]).
Proof.
  intros Hports Hbefore Hnet Hexn. simpl. unfold bind at 1. unfold health_check_tick.
  by rewrite Hports, probe_loop_app, Hbefore, (probe_loop_raised env _ _ _ _ _ _ Hnet), Hexn.
Qed.

Lemma monitor_ends_on_other_exception_crash :
  SUBAPP_PORTS default_globals = [] ++ ("main", 8000) :: [("subapp1", 8001); ("subapp2", 8002)]
  /\ health_check default_globals world_net_crash 3 []
     = (Raise (OtherError "MemoryError"),
        [HttpRequest (get_call "http://localhost:8000/health")]).
Proof.
  split; [reflexivity |].
  apply (monitor_ends_on_other_exception default_globals world_net_crash [] [] "main" 8000
           [("subapp1", 8001); ("subapp2", 8002)] None [] (OtherError "MemoryError") 2);
    reflexivity.
Defined.

(** ** The configuration and the manifest *)

(** X14: whatever the process environment holds, the route table built
    at import has exactly the backends [main], [subapp1] and [subapp2], in
    that order and without repetition, [main] on [MAIN_APP_PORT]; hence
    the manifest always has these three services, built from [.],
    [./subapps/subapp1] and [./subapps/subapp2]. *)
Theorem import_route_table environ :
  let g := module_globals environ in
  Py.keys (SUBAPP_PORTS g) = ["main"; "subapp1"; "subapp2"]
  /\ NoDup (Py.keys (SUBAPP_PORTS g))
  /\ Py.dict_get "main" (SUBAPP_PORTS g) = Some (MAIN_APP_PORT g)
  /\ Py.keys (compose_services (compose_dict g)) = ["main"; "subapp1"; "subapp2"]
  /\ map (fun item => svc_build item.2) (compose_services (compose_dict g))
     = ["."; "./subapps/subapp1"; "./subapps/subapp2"].
Proof.
  simpl. repeat split.
  repeat constructor; rewrite ?elem_of_cons, ?elem_of_nil; intuition discriminate.
Qed.

(** [generate_docker_compose] writes the manifest in one dump of the
    compose file and returns what that write returned: an error of the
    file system is raised to the caller, and the success line is logged
    only after a successful write. *)
Lemma generate_docker_compose_outcome g env t :
  generate_docker_compose g env t
  = (file_system env t (DOCKER_COMPOSE_FILE g),
     t ++ YamlDump (DOCKER_COMPOSE_FILE g) (compose_dict g)
       :: match file_system env t (DOCKER_COMPOSE_FILE g) with
          | Ok _ => [LogInfo "Generated docker-compose.yml successfully."]
          | Raise _ => []
          end).
Proof.
  unfold generate_docker_compose, bind, ask, log_info, emit.
  destruct (file_system env t _) as [[]|e]; simpl; [by rewrite <- app_assoc | done].
Qed.

(** ** Start-up: [build_docker_images] and [__ainit__] *)

Lemma core_trace_app tx1 tx2 : core_trace (tx1 ++ tx2) = core_trace tx1 ++ core_trace tx2.
Proof. apply omap_app. Qed.

(** A request-path computation that appends [d] appends it, wrapped, to
    the start-up trace. *)
Lemma core_run {A} (c : M A) tx r d :
  c (core_trace tx) = (r, core_trace tx ++ d) ->
  core c tx = (r, tx ++ map Core d).
Proof.
  intros Hc. unfold core. rewrite Hc. by rewrite drop_app_length.
Qed.

Lemma core_subprocess_run env argv tx :
  core (subprocess_run env argv) tx
  = (proc env (core_trace tx) argv, tx ++ [Core (SubprocessRun argv)]).
Proof. by apply (core_run _ _ _ [SubprocessRun argv]). Qed.

Lemma core_log_info msg tx : core (log_info msg) tx = (Ok tt, tx ++ [Core (LogInfo msg)]).
Proof. by apply (core_run _ _ _ [LogInfo msg]). Qed.

Lemma core_log_error msg tx : core (log_error msg) tx = (Ok tt, tx ++ [Core (LogError msg)]).
Proof. by apply (core_run _ _ _ [LogError msg]). Qed.

(** The run of the loop body for one name, spelled out. *)
Lemma build_one_run senv name tx :
  let dir := PyPath.dirname (dockerfile_path name) in
  let path := dockerfile_path name in
  let content := DOCKERFILE_TEMPLATE_format name in
  let argv := ["docker-compose"; "build"; name] in
  build_one senv name tx
  = match makedirs senv tx dir with
    | Raise e => (Raise e, tx ++ [MakeDirs dir])
    | Ok _ =>
        match open_write senv (tx ++ [MakeDirs dir]) path with
        | Raise e => (Raise e, tx ++ [MakeDirs dir; FileWrite path content])
        | Ok _ =>
            match proc (sys_core senv) (core_trace tx) argv with
            | Raise e =>
                (Raise e, tx ++ [MakeDirs dir; FileWrite path content;
                                 Core (SubprocessRun argv)])
            | Ok _ => (Ok tt, tx ++ build_events name)
            end
        end
    end.
Proof.
  simpl. unfold build_one, xbind, xask.
  destruct (makedirs senv tx _) as [[]|e]; [| done].
  destruct (open_write senv _ _) as [[]|e]; [| by rewrite <- app_assoc].
  rewrite core_subprocess_run, !core_trace_app. simpl. rewrite !app_nil_r.
  destruct (proc (sys_core senv) _ _) as [[]|e].
  - rewrite core_log_info. unfold build_events. by rewrite <- !app_assoc.
  - by rewrite <- !app_assoc.
Qed.

Lemma build_loop_app senv l1 l2 tx :
  build_loop senv (l1 ++ l2) tx
  = match build_loop senv l1 tx with
    | (Ok _, tx1) => build_loop senv l2 tx1
    | other => other
    end.
Proof.
  revert tx. induction l1 as [|name l1 IH]; intros tx; [done |].
  simpl. unfold xbind. destruct (build_one senv name tx) as [[[]|e] tx1]; [apply IH | done].
Qed.

(** A loop that ends normally has built every name, in order. *)
Lemma build_loop_ok senv names tx tx' :
  build_loop senv names tx = (Ok tt, tx') -> tx' = tx ++ flat_map build_events names.
Proof.
  revert tx. induction names as [|name names IH]; intros tx Hrun; simpl in *.
  - unfold xret in Hrun. simplify_eq. by rewrite app_nil_r.
  - unfold xbind in Hrun. pose proof (build_one_run senv name tx) as Hone. simpl in Hone.
    rewrite Hone in Hrun. clear Hone.
    destruct (makedirs senv tx _) as [[]|e]; [| done].
    destruct (open_write senv _ _) as [[]|e]; [| done].
    destruct (proc (sys_core senv) _ _) as [[]|e]; [| done].
    apply IH in Hrun. by rewrite Hrun, <- app_assoc.
Qed.

Lemma dockerfiles_app tx1 tx2 : dockerfiles (tx1 ++ tx2) = dockerfiles tx1 ++ dockerfiles tx2.
Proof. apply omap_app. Qed.

Lemma dockerfiles_built names :
  dockerfiles (flat_map build_events names)
  = map (fun name => (dockerfile_path name, DOCKERFILE_TEMPLATE_format name)) names.
Proof.
  induction names as [|name names IH]; [done |].
  change (flat_map build_events (name :: names))
    with (build_events name ++ flat_map build_events names).
  rewrite dockerfiles_app, IH. done.
Qed.

Lemma build_docker_images_ok g senv tx tx' :
  build_docker_images g senv tx = (Ok tt, tx') ->
  tx' = tx ++ flat_map build_events (Py.keys (SUBAPP_PORTS g)).
Proof.
  unfold build_docker_images, xtry_except.
  destruct (build_loop senv (Py.keys (SUBAPP_PORTS g)) tx) as [[[]|e] tx1] eqn:Hloop.
  - intros [= <-]. by apply build_loop_ok in Hloop.
  - destruct (is_CalledProcessError e); [| done].
    unfold xbind. by rewrite core_log_error.
Qed.

(** X15: when [build_docker_images] returns normally it has, for every
    backend of the route table and in the order of the table, created the
    directory of its Dockerfile, written the Dockerfile ([./Dockerfile]
    for [main], [./subapps/<name>/Dockerfile] otherwise) with the template
    filled in with the name, run [docker-compose build <name>] and logged
    the build, and it has done nothing else. *)
Theorem build_docker_images_returns g senv tx :
  (build_docker_images g senv tx).1 = Ok tt ->
  (build_docker_images g senv tx).2 = tx ++ flat_map build_events (Py.keys (SUBAPP_PORTS g))
  /\ dockerfiles (build_docker_images g senv tx).2
     = dockerfiles tx
       ++ map (fun name => (dockerfile_path name, DOCKERFILE_TEMPLATE_format name))
            (Py.keys (SUBAPP_PORTS g)).
Proof.
  intros Hok.
  destruct (build_docker_images g senv tx) as [r tx'] eqn:Hrun. simpl in Hok. subst r.
  apply build_docker_images_ok in Hrun. subst tx'. simpl. split; [done |].
  by rewrite dockerfiles_app, dockerfiles_built.
Qed.

Lemma build_docker_images_returns_default :
  (build_docker_images default_globals (sys_world (world_answering 200 "OK")) []).1 = Ok tt
  /\ dockerfiles (build_docker_images default_globals (sys_world (world_answering 200 "OK")) []).2
     = [("./Dockerfile", DOCKERFILE_TEMPLATE_format "main");
        ("./subapps/subapp1/Dockerfile", DOCKERFILE_TEMPLATE_format "subapp1");
        ("./subapps/subapp2/Dockerfile", DOCKERFILE_TEMPLATE_format "subapp2")].
Proof.
  split; [reflexivity |].
  apply (build_docker_images_returns default_globals (sys_world (world_answering 200 "OK")) []).
  reflexivity.
Defined.

(** X16: [build_docker_images] fails fast and rolls nothing back.  When
    the build command of a backend raises after the backends before it
    were built, the exception leaves the function: the Dockerfile of the
    failing backend stays written, the backends after it are not touched,
    and one error line is logged if the exception is a
    [CalledProcessError], none otherwise. *)
Theorem build_docker_images_fails_fast g senv tx before name after tx1 e :
  Py.keys (SUBAPP_PORTS g) = before ++ name :: after ->
  build_loop senv before tx = (Ok tt, tx1) ->
  let dir := PyPath.dirname (dockerfile_path name) in
  let path := dockerfile_path name in
  let argv := ["docker-compose"; "build"; name] in
  makedirs senv tx1 dir = Ok tt ->
  open_write senv (tx1 ++ [MakeDirs dir]) path = Ok tt ->
  proc (sys_core senv) (core_trace tx1) argv = Raise e ->
  build_docker_images g senv tx
  = (Raise e,
     tx1 ++ [MakeDirs dir; FileWrite path (DOCKERFILE_TEMPLATE_format name);
             Core (SubprocessRun argv)]
         ++ (if is_CalledProcessError e
             then [Core (LogError "Failed to build Docker images.")] else [])).
Proof.
  intros Hkeys Hbefore dir path argv Hdirs Hopen Hproc.
  unfold build_docker_images, xtry_except.
  rewrite Hkeys, build_loop_app, Hbefore. simpl. unfold xbind at 1.
  pose proof (build_one_run senv name tx1) as Hone. simpl in Hone.
  fold dir path argv in Hone. rewrite Hdirs, Hopen, Hproc in Hone. rewrite Hone.
  destruct (is_CalledProcessError e).
  - unfold xbind, xthrow. rewrite core_log_error. by rewrite <- app_assoc.
  - done.
Qed.

Lemma build_docker_images_fails_fast_subapp1 :
  Py.keys (SUBAPP_PORTS default_globals) = ["main"] ++ "subapp1" :: ["subapp2"]
  /\ build_loop (sys_world world_build_failing) ["main"] [] = (Ok tt, build_events "main")
  /\ build_docker_images default_globals (sys_world world_build_failing) []
     = (Raise (CalledProcessError ["docker-compose"; "build"; "subapp1"]),
        build_events "main"
        ++ [MakeDirs "./subapps/subapp1";
            FileWrite "./subapps/subapp1/Dockerfile" (DOCKERFILE_TEMPLATE_format "subapp1");
            Core (SubprocessRun ["docker-compose"; "build"; "subapp1"])]
        ++ [Core (LogError "Failed to build Docker images.")]).
Proof.
  split; [reflexivity | split; [reflexivity |]].
  apply (build_docker_images_fails_fast default_globals (sys_world world_build_failing) []
           ["main"] "subapp1" ["subapp2"] (build_events "main")
           (CalledProcessError ["docker-compose"; "build"; "subapp1"]));
    reflexivity.
Defined.


(** ** The Dockerfile and the build context *)

Lemma head_to_last_sep_dockerfile s :
  PyPath.head_to_last_sep (s +:+ "/Dockerfile") = s +:+ "/".
Proof.
  induction s as [|a s IH]; [reflexivity |].
  rewrite !string_app_cons. simpl. rewrite IH. by destruct s.
Qed.

Lemma rstrip_fixed_suffix c p s :
  Py.rstrip c s = s -> s <> "" -> Py.rstrip c (p +:+ s) = p +:+ s.
Proof.
  intros Hs Hne. induction p as [|a p IH]; [done |].
  rewrite string_app_cons. simpl. rewrite IH.
  destruct (p +:+ s) eqn:E; [| done].
  destruct p; [by rewrite string_app_nil in E | by rewrite string_app_cons in E].
Qed.

(** X20: the Dockerfile of a backend is written into the build context
    that the manifest gives to its service: for [main], and for every
    name that is not empty and does not end in a slash, the directory
    created by [build_docker_images] is the [build] entry of
    [generate_docker_compose]. *)
Theorem dockerfile_in_build_context g name port :
  name <> "" ->
  Py.rstrip "/" name = name ->
  PyPath.dirname (dockerfile_path name) = svc_build (service_for g name port)
  /\ dockerfile_path name = svc_build (service_for g name port) +:+ "/Dockerfile".
Proof.
  intros Hne Hstrip. unfold dockerfile_path, service_for. cbn [svc_build].
  destruct (String.eqb name "main"); cbn [negb]; [done |].
  split; [| by rewrite string_app_assoc].
  unfold PyPath.dirname.
  rewrite <- string_app_assoc, head_to_last_sep_dockerfile.
  assert (String.eqb (Py.lstrip "/" (("./subapps/" +:+ name) +:+ "/")) "" = false) as ->
    by reflexivity.
  rewrite rstrip_sep. by apply rstrip_fixed_suffix.
Qed.

Lemma dockerfile_in_build_context_subapp1 :
  "subapp1" <> "" /\ Py.rstrip "/" "subapp1" = "subapp1"
  /\ PyPath.dirname (dockerfile_path "subapp1")
     = svc_build (service_for default_globals "subapp1" 8001).
Proof.
  split; [discriminate | split; [reflexivity |]].
  apply (dockerfile_in_build_context default_globals "subapp1" 8001);
    [discriminate | reflexivity].
Defined.
